(** * go-http-pgsql-krb5: a shallow embedding of the delegation broker

    The development follows the three Go source files of the repository:

    - [pkg/pgx/provider.go]: the GSS provider built on a credential cache
      ([NewGSSFromCCache], [GetInitToken], [GetInitTokenFromSPN], [Continue],
      [canonicalizeHost]) and the two functions that register it with the
      PostgreSQL client library ([QueryAsUser], [PoolForUser]);
    - [internal/handlers/ipa.go]: the FreeIPA login ([loginKerberos]), the
      JSON-RPC call ([UserShow]) and the two HTTP handlers
      ([IpaUserHandler], [TestSelectHandler]).

    Go strings are byte strings and are modelled by [string]; [[]byte] is a
    list of bytes; an [int] that carries a flag mask or an HTTP status is a
    [Z].  A Go function returning [(v, error)] returns a [Result]; a call
    into a library with an effect outside the process (file system, KDC,
    network, the client library's registration point) is a node of a
    program tree [Prog], whose answers are given by a [World].  A function
    that a panic can unwind through returns an [Answer]: the parser of the
    credential cache panics on a file that is too short, and that panic
    passes through every caller up to the HTTP handler, whose [Outcome]
    records it. *)

From Stdlib Require Import ZArith String Ascii List Bool Lia.
From stdpp Require Import base list strings gmap pretty.

Open Scope string_scope.
Open Scope list_scope.
Open Scope Z_scope.

Set Implicit Arguments.

(** ** Go's [strings] package, on byte strings *)

Module strings.

Definition byte_of (c : ascii) : Z := Z.of_nat (nat_of_ascii c).

(** [utf8.RuneSelf]: bytes below it are single-byte runes. *)
Definition RuneSelf : Z := 128.

Definition isUpperByte (c : ascii) : bool :=
  (byte_of "A" <=? byte_of c) && (byte_of c <=? byte_of "Z").

(** [c += 'a' - 'A'] for an upper-case ASCII letter, [c] otherwise. *)
Definition lowerByte (c : ascii) : ascii :=
  if isUpperByte c
  then ascii_of_nat (Z.to_nat (byte_of c + (byte_of "a" - byte_of "A")))
  else c.

Fixpoint isASCII (s : string) : bool :=
  match s with
  | EmptyString => true
  | String c s' => (byte_of c <? RuneSelf) && isASCII s'
  end.

Fixpoint mapBytes (f : ascii -> ascii) (s : string) : string :=
  match s with
  | EmptyString => EmptyString
  | String c s' => String (f c) (mapBytes f s')
  end.

Section ToLower.
(** The general path of [strings.ToLower], [Map(unicode.ToLower, s)],
    is taken only when the string has a byte outside ASCII; it is a
    parameter. *)
Variable unicodeToLower : string -> string.

Definition ToLower (s : string) : string :=
  if isASCII s then mapBytes lowerByte s else unicodeToLower s.
End ToLower.

Definition HasPrefix (s prefix : string) : bool := String.prefix prefix s.

Definition HasSuffix (s suffix : string) : bool :=
  (String.length suffix <=? String.length s)%nat &&
  String.eqb
    (String.substring (String.length s - String.length suffix)
                      (String.length suffix) s)
    suffix.

(** [s[:len(s)-len(suffix)]] when [s] ends with [suffix], [s] otherwise. *)
Definition TrimSuffix (s suffix : string) : string :=
  if HasSuffix s suffix
  then String.substring 0 (String.length s - String.length suffix) s
  else s.

Fixpoint containsByte (cutset : string) (c : ascii) : bool :=
  match cutset with
  | EmptyString => false
  | String d cutset' => Ascii.eqb c d || containsByte cutset' c
  end.

(** [strings.TrimRight] for a cutset of ASCII bytes: every trailing byte
    of [s] that occurs in [cutset] is dropped. *)
Fixpoint TrimRight (s cutset : string) : string :=
  match s with
  | EmptyString => EmptyString
  | String c s' =>
      match TrimRight s' cutset with
      | EmptyString => if containsByte cutset c then EmptyString
                       else String c EmptyString
      | rest => String c rest
      end
  end.

(** [strings.Split(s, sep)] for a separator of one byte (the only use in
    the repository is [":"]): the fields between the occurrences of
    [sep], in order; the result is never empty. *)
Fixpoint Split (s : string) (sep : ascii) : list string :=
  match s with
  | EmptyString => [EmptyString]
  | String c s' =>
      if Ascii.eqb c sep then EmptyString :: Split s' sep
      else match Split s' sep with
           | f :: fs => String c f :: fs
           | [] => [String c EmptyString]
           end
  end.

(** [strings.Contains(s, string(sep))], for a separator of one byte. *)
Fixpoint ContainsByte (s : string) (sep : ascii) : bool :=
  match s with
  | EmptyString => false
  | String c s' => Ascii.eqb c sep || ContainsByte s' sep
  end.

(** [strings.Join(fields, string(sep))]. *)
Fixpoint Join (fields : list string) (sep : ascii) : string :=
  match fields with
  | [] => EmptyString
  | [f] => f
  | f :: rest => f +:+ String sep (Join rest sep)
  end.

End strings.

(** ** Values shared by the two packages *)

(** Go's [error], identified with its message: [err.Error()]. *)
Definition error := string.

(** A Go result pair [(v, err)]: [inl err] when [err != nil]. *)
Definition Result (A : Type) : Type := (error + A)%type.

(** [fmt.Errorf(msg + "%w", err)]: the message is the prefix followed by
    the message of the wrapped error. *)
Definition Errorf_w (msg : string) (err : error) : error := msg +:+ err.

(** [fmt.Errorf(msg + "%d", n)]. *)
Definition Errorf_d (msg : string) (n : Z) : error := msg +:+ pretty n.

(** [time.Time], as seconds on the library's clock; the zero value of the
    type is [0]. *)
Definition Time := Z.

(** A dynamically typed value ([any]) as the database driver returns it. *)
Inductive any : Type :=
| any_nil
| any_string (s : string)
| any_Time (t : Time)
| any_int64 (n : Z)
| any_bool (b : bool).

(** A run-time panic of the Go program. *)
Inductive panic : Type :=
| IndexOutOfRange (index len : nat)
| NilDereference
| InterfaceConversion (v : any) (want : string).

(** How a call ends that a panic can unwind through: it returns its
    results, or a panic raised below it passes through it to its caller. *)
Inductive Answer (A : Type) : Type :=
| Returns (a : A)
| Panics (p : panic).

Arguments Returns {A} a.
Arguments Panics {A} p.

(** What [credentials.LoadCCache] does with the file it is given.  It
    returns the cache or an error; or its parser, which indexes into the
    bytes read without checking how many there are, reaches past the end
    of a file that is too short (an empty file, at its first byte) and
    the index expression panics. *)
Inductive Loaded (C : Type) : Type :=
| Load_returns (r : Result C)
| Load_panics (index len : nat).

Arguments Load_returns {C} r.
Arguments Load_panics {C} index len.

(** A JSON document, as [encoding/json] writes or reads it. *)
#[warnings="-register-all"]
Inductive json : Type :=
| JNull
| JBool (b : bool)
| JNumber (n : Z)
| JString (s : string)
| JArray (elems : list json)
| JObject (fields : list (string * json)).

(** [gssapi.ContextFlag*] of the Kerberos library (RFC 2744, section 5.19
    gives the same numbers). *)
Module gssapi.
Definition ContextFlagMutual : Z := 2.
Definition ContextFlagConf : Z := 16.
Definition ContextFlagInteg : Z := 32.



End gssapi.

(** Options of [client.NewFromCCache] used in the repository. *)
Inductive ClientSetting : Type :=
| AssumePreAuthentication (b : bool)
| DisablePAFXFAST (b : bool).

(** [net/url.URL], by the one accessor the code uses. *)
Record URL : Type := { URL_Hostname : string }.

(** [http.Cookie]. *)
Record Cookie : Type := { Cookie_Name : string; Cookie_Value : string }.

(** [http.Client{Timeout: ...}]. *)
Record HTTPClient : Type := { HTTPClient_Timeout : Z }.

(** An outgoing [http.Request]. *)
Record HTTPRequest : Type := {
  Req_Method : string;
  Req_URL : string;
  Req_Header : list (string * string);
  Req_Cookies : list Cookie;
  Req_Body : option json
}.

(** An [http.Response] after its body was read. *)
Record HTTPResponse : Type := {
  Resp_StatusCode : Z;
  Resp_Cookies : list Cookie;
  Resp_Body : string
}.

Definition StatusOK : Z := 200.
Definition StatusBadRequest : Z := 400.
Definition StatusUnauthorized : Z := 401.
Definition StatusInternalServerError : Z := 500.
Definition StatusBadGateway : Z := 502.

(** [ipaResp]: [Result.Result] and the optional [Error]. *)
Record ipaError : Type := { ipaError_Code : Z; ipaError_Message : string }.
Record ipaResp : Type := {
  ipaResp_Result : list (string * json);
  ipaResp_Error : option ipaError
}.

(** The fields of [pgx.ConnConfig] that the code or the client library's
    GSS step reads or writes. *)
Record TLSConfig : Type := { TLS_MinVersion : Z; TLS_ServerName : string }.
Record ConnConfig : Type := {
  Cfg_Host : string;
  Cfg_KerberosSrvName : string;
  Cfg_KerberosSpn : string;
  Cfg_ConnectTimeout : Z;
  Cfg_TLSConfig : option TLSConfig
}.
Definition VersionTLS12 : Z := 771.

(** [pgxpool.Config], by the fields [PoolForUser] sets. *)
Record PoolConfig : Type := {
  Pool_ConnConfig : ConnConfig;
  Pool_MaxConns : Z;
  Pool_MinConns : Z;
  Pool_MaxConnLifetime : Z;
  Pool_HealthCheckPeriod : Z;
  Pool_DialTimeout : option Z
}.

(** [pgx.Rows]: a finite stream; each element is what [Values] returns for
    the row [Next] has advanced to, and [Rows_Err] is what [Err] returns
    once [Next] has returned false. *)
Record Rows : Type := {
  Rows_values : list (Result (list any));
  Rows_Err : option error
}.

(** The closure handed to [pgconn.RegisterGSSProvider], by the variables it
    captures: both registration sites register
    [func() { return NewGSSFromCCache(ccachePath, krb5Conf, opts...) }]. *)
Record Provider : Type := {
  Provider_ccachePath : string;
  Provider_krb5Conf : string;
  Provider_opts : list ClientSetting
}.

(** ** The libraries: opaque types and pure functions *)

Class Lib : Type := {
  CCache : Type;
  Config : Type;
  Client : Type;
  Ticket : Type;
  EncryptionKey : Type;
  KRB5Token : Type;
  Conn : Type;
  Pool : Type;
  (** [config.New()] *)
  config_New : Config;
  (** the end of a ticket's validity window *)
  Ticket_EndTime : Ticket -> Time;
  (** [strings.ToLower] outside ASCII *)
  unicodeToLower : string -> string;
  (** [url.Parse] *)
  url_Parse : string -> Result URL;
  (** [base64.StdEncoding.EncodeToString] *)
  base64_EncodeToString : list Byte.byte -> string;
  (** [KRB5Token.Unmarshal] of the [spnego] package *)
  KRB5Token_Unmarshal : list Byte.byte -> Result KRB5Token;
  (** [json.NewDecoder(body).Decode(&out)] for [out : ipaResp] *)
  json_Decode_ipaResp : string -> Result ipaResp;
  (** [Time.MarshalJSON]: the text between the quotes, or the error (the
      year of the time is outside 0..9999) *)
  Time_MarshalJSON : Time -> Result string;
  (** the zero [time.Time] is January 1 of year 1, 00:00:00 UTC *)
  Time_MarshalJSON_zero : Time_MarshalJSON 0 = inr "0001-01-01T00:00:00Z"
}.

(** ** Calls with an effect outside the function, and program trees *)

Section Programs.
Context {L : Lib}.

(** One constructor per library call whose answer depends on, or changes,
    something outside the calling function; the index is the type of the
    answer. *)
Inductive Call : Type -> Type :=
| os_Getenv (key : string) : Call string
| log_Println (msg : string) : Call unit
| credentials_LoadCCache (path : string) : Call (Loaded CCache)
| config_Load (path : string) : Call (Result Config)
| client_NewFromCCache (cc : CCache) (cfg : Config)
    (opts : list ClientSetting) : Call (Result Client)
| Client_GetServiceTicket (cl : Client) (spn : string)
    : Call (Result (Ticket * EncryptionKey))
| spnego_NewKRB5TokenAPREQ (cl : Client) (tkt : Ticket)
    (key : EncryptionKey) (GSSAPIFlags APOptions : list Z)
    : Call (Result KRB5Token)
| KRB5Token_Marshal (tok : KRB5Token) : Call (Result (list Byte.byte))
| HTTPClient_Do (c : HTTPClient) (req : HTTPRequest)
    : Call (Result HTTPResponse)
(** the client library's process-wide registration point *)
| pgconn_RegisterGSSProvider (p : Provider) : Call unit
| pgconn_newGSS : Call (option Provider)
(** the client library's connection steps *)
| pgx_ParseConfig (dsn : string) : Call (Result ConnConfig)
| pgconn_dial (cfg : ConnConfig) : Call (Result Conn)
| pgconn_sendGSSResponse (c : Conn) (tok : list Byte.byte)
    : Call (Result (list Byte.byte))
| pgconn_authResult (c : Conn) : Call (option error)
| Conn_Query (c : Conn) (sql : string) (args : list any)
    : Call (Result Rows)
| Rows_Close (r : Rows) : Call unit
| Conn_Close (c : Conn) : Call unit
| pgxpool_ParseConfig (dsn : string) : Call (Result PoolConfig)
| pgxpool_NewWithConfig (pc : PoolConfig) : Call (Result Pool).

Inductive Prog (A : Type) : Type :=
| Ret (a : A)
| Vis (T : Type) (c : Call T) (k : T -> Prog A).

Arguments Ret {A} a.
Arguments Vis {A T} c k.

Fixpoint bind {A B : Type} (p : Prog A) (f : A -> Prog B) : Prog B :=
  match p with
  | Ret a => f a
  | Vis c k => Vis c (fun t => bind (k t) f)
  end.

Definition call {T : Type} (c : Call T) : Prog T := Vis c Ret.

(** What was called and what it answered. *)
Inductive Event : Type :=
| Ev (T : Type) (c : Call T) (t : T).

(** ** Worlds

    A world answers the calls.  The registration point of the client
    library is one variable of the process ([newGSS]): registering
    overwrites it, and the library reads it when a connection needs a GSS
    provider.  Everything else is answered by the environment. *)
Record World : Type := {
  Env : Type;
  answer : forall T : Type, Call T -> Env -> T * Env
}.

Record State (W : World) : Type := {
  newGSS : option Provider;
  env : Env W
}.

Definition perform (W : World) (T : Type) (c : Call T) (s : State W)
  : T * State W :=
  match c in Call T0 return T0 * State W with
  | pgconn_RegisterGSSProvider p =>
      (tt, {| newGSS := Some p; env := env s |})
  | pgconn_newGSS => (newGSS s, s)
  | c0 =>
      let (t, e) := answer W c0 (env s) in
      (t, {| newGSS := newGSS s; env := e |})
  end.

(** Running one program to its end: result, final state, and the calls
    made, oldest first. *)
Fixpoint run (W : World) (A : Type) (p : Prog A) (s : State W)
  : A * State W * list Event :=
  match p with
  | Ret a => (a, s, [])
  | Vis c k =>
      let (t, s') := perform c s in
      let '(a, s'', tr) := run (k t) s' in
      (a, s'', Ev c t :: tr)
  end.

End Programs.

Arguments Ret {L A} a.
Arguments Vis {L A T} c k.

Notation "'do' x <- c ; k" := (bind c (fun x => k))
  (at level 10, x name, c at level 100, k at level 200).

(** ** [pkg/pgx/provider.go] *)

(** The interface [pgconn.GSS] that the client library drives. *)
Class GSS {L : Lib} (G : Type) : Type := {
  GSS_GetInitToken : G -> string -> string -> Prog (Result (list Byte.byte));
  GSS_GetInitTokenFromSPN : G -> string -> Prog (Result (list Byte.byte));
  (** [(done, outToken, err)] *)
  GSS_Continue : G -> list Byte.byte ->
                 Prog (bool * list Byte.byte * option error)
}.

Section Provider.
Context {L : Lib}.

Record gssFromCCache : Type := { cl : Client }.

Definition NewGSSFromCCache (ccachePath krb5ConfPath : string)
    (opts : list ClientSetting) : Prog (Answer (Result gssFromCCache)) :=
  do r <- call (credentials_LoadCCache ccachePath);
  match r with
  | Load_panics i n => Ret (Panics (IndexOutOfRange i n))
  | Load_returns (inl err) =>
      Ret (Returns (inl (Errorf_w "load ccache: " err)))
  | Load_returns (inr cc) =>
      do rcfg <-
        (if negb (String.eqb krb5ConfPath "") then
           do r <- call (config_Load krb5ConfPath);
           match r with
           | inl err => Ret (inl (Errorf_w "load krb5.conf: " err))
           | inr cfg => Ret (inr cfg)
           end
         else Ret (inr config_New));
      match rcfg with
      | inl err => Ret (Returns (inl err))
      | inr cfg =>
          do r <- call (client_NewFromCCache cc cfg opts);
          match r with
          | inl err =>
              Ret (Returns (inl (Errorf_w "client from ccache: " err)))
          | inr cl0 => Ret (Returns (inr {| cl := cl0 |}))
          end
      end
  end.

Definition canonicalizeHost (h : string) : string :=
  strings.TrimSuffix (strings.ToLower unicodeToLower h) ".".

(** The flags of the token sent on the database wire path. *)
Definition GetInitTokenFromSPN_flags : list Z :=
  [gssapi.ContextFlagInteg; gssapi.ContextFlagConf; gssapi.ContextFlagMutual].

Definition GetInitTokenFromSPN (g : gssFromCCache) (spn : string)
  : Prog (Result (list Byte.byte)) :=
  do r <- call (Client_GetServiceTicket (cl g) spn);
  match r with
  | inl err =>
      Ret (inl (Errorf_w ("get service ticket for " +:+ spn +:+ ": ") err))
  | inr (tkt, key) =>
      do r <- call (spnego_NewKRB5TokenAPREQ (cl g) tkt key
                      GetInitTokenFromSPN_flags []);
      match r with
      | inl err => Ret (inl (Errorf_w "build KRB5 token: " err))
      | inr krbTok => call (KRB5Token_Marshal krbTok)
      end
  end.

Definition GetInitToken (g : gssFromCCache) (host service : string)
  : Prog (Result (list Byte.byte)) :=
  let spn := service +:+ "/" +:+ canonicalizeHost host in
  GetInitTokenFromSPN g spn.

Definition Continue (g : gssFromCCache) (inToken : list Byte.byte)
  : Prog (bool * list Byte.byte * option error) :=
  match KRB5Token_Unmarshal inToken with
  | inl _ => Ret (true, [], None)
  | inr _ => Ret (true, [], None)
  end.

#[export] Instance gssFromCCache_GSS : GSS gssFromCCache := {
  GSS_GetInitToken := GetInitToken;
  GSS_GetInitTokenFromSPN := GetInitTokenFromSPN;
  GSS_Continue := Continue
}.

(** Calling a registered provider closure. *)
Definition Provider_call (p : Provider)
  : Prog (Answer (Result gssFromCCache)) :=
  NewGSSFromCCache (Provider_ccachePath p) (Provider_krb5Conf p)
                   (Provider_opts p).

End Provider.

(** ** The client library's connection procedure *)

Section ClientLibrary.
Context {L : Lib} {G : Type} {HG : GSS G}.

(** How the library calls the closure it finds at the registration
    point. *)
Variable provider_call : Provider -> Prog (Answer (Result G)).

(** How the token exchange ends; [gssPanicked] when the provider closure
    panicked, the panic being on its way through the library. *)
Inductive gssResult : Type :=
| gssEstablished
| gssFailed (err : error)
| gssUnfinished
| gssPanicked (p : panic).

(** Modelled from the spec: the token exchange of the client library,
    which is not part of the repository (spec 4.4 and 9).  The current
    token is transmitted, the peer's reply is handed to [Continue], and
    the step is repeated until [Continue] reports [done] or fails.
    [rounds] bounds the number of tokens the model follows;
    [gssUnfinished] is returned when the bound is reached with [done]
    still false. *)
Fixpoint gssRounds (rounds : nat) (c : Conn) (cli : G)
    (nextData : list Byte.byte) : Prog gssResult :=
  match rounds with
  | O => Ret gssUnfinished
  | S n =>
      do r <- call (pgconn_sendGSSResponse c nextData);
      match r with
      | inl err => Ret (gssFailed err)
      | inr resp =>
          do res <- GSS_Continue cli resp;
          match res with
          | (_, _, Some err) => Ret (gssFailed err)
          | (true, _, None) => Ret gssEstablished
          | (false, next, None) => gssRounds n c cli next
          end
      end
  end.

(** Modelled from the spec: the library consults the registration point
    at connection time, not at registration time (spec 4.5), calls the
    closure it finds there, and asks the provider for the first token:
    for the configured SPN when the connection string gives one,
    otherwise for the host and the service name (["postgres"] unless
    [krbsrvname] overrides it). *)
Definition gssAuth (rounds : nat) (c : Conn) (cfg : ConnConfig)
  : Prog gssResult :=
  do f <- call pgconn_newGSS;
  match f with
  | None =>
      Ret (gssFailed "kerberos error: no GSSAPI provider registered")
  | Some p =>
      do r <- provider_call p;
      match r with
      | Panics q => Ret (gssPanicked q)
      | Returns (inl err) => Ret (gssFailed err)
      | Returns (inr cli) =>
          do t <-
            (if negb (String.eqb (Cfg_KerberosSpn cfg) "") then
               GSS_GetInitTokenFromSPN cli (Cfg_KerberosSpn cfg)
             else
               let service :=
                 if negb (String.eqb (Cfg_KerberosSrvName cfg) "")
                 then Cfg_KerberosSrvName cfg else "postgres" in
               GSS_GetInitToken cli (Cfg_Host cfg) service);
          match t with
          | inl err => Ret (gssFailed err)
          | inr tok => gssRounds rounds c cli tok
          end
      end
  end.

(** Modelled from the spec: [pgx.ConnectConfig], the state machine
    INIT, TOKEN_SENT, ESTABLISHED or FAILED of spec 4.4.  [pgconn_dial]
    opens the transport and returns when the peer asks for a token;
    [pgconn_authResult] is the peer's verdict after the exchange.  A
    panic of the provider closure is not recovered by the library. *)
Definition ConnectConfig (rounds : nat) (cfg : ConnConfig)
  : Prog (Answer (Result Conn)) :=
  do r <- call (pgconn_dial cfg);
  match r with
  | inl err => Ret (Returns (inl err))
  | inr c =>
      do a <- gssAuth rounds c cfg;
      match a with
      | gssPanicked p => Ret (Panics p)
      | gssFailed err => Ret (Returns (inl err))
      | gssUnfinished => Ret (Returns (inl "gss: exchange not finished"))
      | gssEstablished =>
          do v <- call (pgconn_authResult c);
          match v with
          | Some err => Ret (Returns (inl err))
          | None => Ret (Returns (inr c))
          end
      end
  end.

End ClientLibrary.

Section Provider_use.
Context {L : Lib}.

Definition QueryAsUser_opts : list ClientSetting :=
  [AssumePreAuthentication true; DisablePAFXFAST false].

(** [for r.Next() { vals, err := r.Values(); ...; out = append(out, vals) }] *)
Fixpoint collectRows (vals : list (Result (list any)))
    (out : list (list any)) : Result (list (list any)) :=
  match vals with
  | [] => inr out
  | inl err :: _ => inl err
  | inr v :: rest => collectRows rest (out ++ [v])
  end.

(** [QueryAsUser(ctx, dsn, ccachePath, krb5Conf, sql, args...)].  The
    context is not modelled.  [return out, r.Err()] is [inl] of the error
    when [r.Err()] is not nil: the one caller drops [out] then.  The two
    deferred [Close] calls run after the result is fixed, last deferred
    first.  A panic of the provider closure during [ConnectConfig] passes
    through: no [Close] has been deferred by then. *)
Definition QueryAsUser (rounds : nat) (dsn ccachePath krb5Conf sql : string)
    (args : list any) : Prog (Answer (Result (list (list any)))) :=
  do _ <- call (pgconn_RegisterGSSProvider
                  {| Provider_ccachePath := ccachePath;
                     Provider_krb5Conf := krb5Conf;
                     Provider_opts := QueryAsUser_opts |});
  do r <- call (pgx_ParseConfig dsn);
  match r with
  | inl err => Ret (Returns (inl err))
  | inr cfg0 =>
      do pgHost <- call (os_Getenv "PG_HOST");
      let cfg :=
        {| Cfg_Host := Cfg_Host cfg0;
           Cfg_KerberosSrvName := Cfg_KerberosSrvName cfg0;
           Cfg_KerberosSpn := Cfg_KerberosSpn cfg0;
           Cfg_ConnectTimeout := 5;
           Cfg_TLSConfig := Some {| TLS_MinVersion := VersionTLS12;
                                    TLS_ServerName := pgHost |} |} in
      do r <- ConnectConfig Provider_call rounds cfg;
      match r with
      | Panics p => Ret (Panics p)
      | Returns (inl err) => Ret (Returns (inl err))
      | Returns (inr conn) =>
          do r <- call (Conn_Query conn sql args);
          match r with
          | inl err =>
              do _ <- call (Conn_Close conn);
              Ret (Returns (inl err))
          | inr rs =>
              let res :=
                match collectRows (Rows_values rs) [] with
                | inl err => inl err
                | inr out =>
                    match Rows_Err rs with
                    | Some err => inl err
                    | None => inr out
                    end
                end in
              do _ <- call (Rows_Close rs);
              do _ <- call (Conn_Close conn);
              Ret (Returns res)
          end
      end
  end.

Definition PoolForUser (dsn ccachePath krb5Conf : string)
  : Prog (Result Pool) :=
  do _ <- call (pgconn_RegisterGSSProvider
                  {| Provider_ccachePath := ccachePath;
                     Provider_krb5Conf := krb5Conf;
                     Provider_opts := [] |});
  do r <- call (pgxpool_ParseConfig dsn);
  match r with
  | inl err => Ret (inl err)
  | inr pc0 =>
      let pc :=
        {| Pool_ConnConfig := Pool_ConnConfig pc0;
           Pool_MaxConns := 1;
           Pool_MinConns := 0;
           Pool_MaxConnLifetime := 30;
           Pool_HealthCheckPeriod := 0;
           Pool_DialTimeout := Some 5 |} in
      call (pgxpool_NewWithConfig pc)
  end.

End Provider_use.

(** ** [internal/handlers/ipa.go] *)

(** *** The server side of [net/http] *)

(** [http.Header.Get]: the first value stored under the key, or the empty
    string.  The keys used below (["X_krb5ccname"], ["Content-Type"],
    ["X-Content-Type-Options"]) are already in canonical form. *)
Definition Header_Get (h : gmap string (list string)) (key : string) : string :=
  match h !! key with
  | Some (v :: _) => v
  | _ => ""
  end.

Definition Header_Set (h : gmap string (list string)) (key value : string)
  : gmap string (list string) := <[key := [value]]> h.

(** [url.Values.Get]: the first value stored under the key, or the empty
    string. *)
Definition Values_Get (v : gmap string (list string)) (key : string) : string :=
  match v !! key with
  | Some (x :: _) => x
  | _ => ""
  end.

(** [goidentity.Identity], by the accessors the handler could use. *)
Record Identity : Type := {
  Identity_UserName : string;
  Identity_Domain : string
}.

(** An inbound [*http.Request]: its header, the parsed query of its URL,
    and the identity that [goidentity.FromHTTPRequestContext] finds in its
    context ([None] for the nil interface). *)
Record Request : Type := {
  Request_Header : gmap string (list string);
  Request_Query : gmap string (list string);
  Request_Identity : option Identity
}.

Inductive BodyChunk : Type :=
| Text (s : string)
| Json (v : json).

(** An [http.ResponseWriter]: the header map, the status once the header
    has been written, the body written so far, and the error its [Write]
    returns when the connection to the client is broken. *)
Record ResponseWriter : Type := {
  W_Header : gmap string (list string);
  W_Status : option Z;
  W_Body : list BodyChunk;
  W_writeErr : option error
}.

Definition W_Header_Set (w : ResponseWriter) (key value : string)
  : ResponseWriter :=
  {| W_Header := Header_Set (W_Header w) key value;
     W_Status := W_Status w;
     W_Body := W_Body w;
     W_writeErr := W_writeErr w |}.

(** [w.WriteHeader(code)]: only the first call has an effect. *)
Definition WriteHeader (w : ResponseWriter) (code : Z) : ResponseWriter :=
  match W_Status w with
  | Some _ => w
  | None => {| W_Header := W_Header w;
               W_Status := Some code;
               W_Body := W_Body w;
               W_writeErr := W_writeErr w |}
  end.

(** [w.Write(chunk)]: writes the header with status 200 first when it has
    not been written. *)
Definition Write (w : ResponseWriter) (chunk : BodyChunk)
  : ResponseWriter * option error :=
  let w1 := WriteHeader w StatusOK in
  match W_writeErr w1 with
  | Some err => (w1, Some err)
  | None => ({| W_Header := W_Header w1;
                W_Status := W_Status w1;
                W_Body := W_Body w1 ++ [chunk];
                W_writeErr := None |}, None)
  end.

(** [http.Error(w, msg, code)]; the result of the final [Fprintln] is
    dropped by the library. *)
Definition http_Error (w : ResponseWriter) (msg : string) (code : Z)
  : ResponseWriter :=
  let w1 := W_Header_Set w "Content-Type" "text/plain; charset=utf-8" in
  let w2 := W_Header_Set w1 "X-Content-Type-Options" "nosniff" in
  let w3 := WriteHeader w2 code in
  fst (Write w3 (Text (msg +:+ String.String "010"%char ""))).

(** [json.NewEncoder(w).Encode(v)]: the value is marshalled first, [m]
    being the outcome; when that fails the error is returned and nothing
    is written, otherwise the document goes out in one [Write]. *)
Definition Encode (w : ResponseWriter) (m : Result json)
  : ResponseWriter * option error :=
  match m with
  | inl err => (w, Some err)
  | inr v => Write w (Json v)
  end.

(** How a handler ends: it returns, or it panics and the server recovers
    the goroutine. *)
Inductive Outcome : Type :=
| Returned (w : ResponseWriter)
| Panicked (w : ResponseWriter) (p : panic).

Definition Outcome_writer (o : Outcome) : ResponseWriter :=
  match o with Returned w => w | Panicked w _ => w end.

Section Handlers.
Context {L : Lib}.

(** The flags of the token sent on the HTTP Negotiate path. *)
Definition loginKerberos_flags : list Z :=
  [gssapi.ContextFlagInteg; gssapi.ContextFlagConf].

(** [for _, c := range resp.Cookies() { if HasPrefix(c.Name, ...) { ...; break } }] *)
Fixpoint findCookie (cookies : list Cookie) : option Cookie :=
  match cookies with
  | [] => None
  | c :: rest =>
      if strings.HasPrefix (Cookie_Name c) "ipa_session" then Some c
      else findCookie rest
  end.

Definition noSessionPrefix (c : Cookie) : Prop :=
  strings.HasPrefix (Cookie_Name c) "ipa_session" = false.

(** [loginKerberos(ctx, ipaBaseURL, krb5ConfPath, ccachePath)].  The
    context is not modelled; the error of [http.NewRequestWithContext] is
    dropped by the code and the request is taken to be built; the answer
    of [HTTPClient_Do] is the response after its body has been read.  One
    [HTTPClient_Do] is one call of [http.Client.Do]: the client is built
    with a timeout and nothing else, so redirects are followed inside that
    call by the library's default policy. *)
Definition loginKerberos (ipaBaseURL krb5ConfPath ccachePath : string)
  : Prog (Answer (Result (HTTPClient * Cookie))) :=
  match url_Parse ipaBaseURL with
  | inl err => Ret (Returns (inl (Errorf_w "ipa url: " err)))
  | inr u =>
      let host := strings.ToLower unicodeToLower (URL_Hostname u) in
      let spn := "HTTP/" +:+ host in
      do r <- call (credentials_LoadCCache ccachePath);
      match r with
      | Load_panics i n => Ret (Panics (IndexOutOfRange i n))
      | Load_returns (inl err) =>
          Ret (Returns (inl (Errorf_w "load ccache: " err)))
      | Load_returns (inr cc) =>
      do r <- call (config_Load krb5ConfPath);
      match r with
      | inl err => Ret (Returns (inl (Errorf_w "load krb5.conf: " err)))
      | inr krbCfg =>
      do r <- call (client_NewFromCCache cc krbCfg
                      [AssumePreAuthentication true]);
      match r with
      | inl err => Ret (Returns (inl (Errorf_w "kerb client: " err)))
      | inr cli =>
      do r <- call (Client_GetServiceTicket cli spn);
      match r with
      | inl err =>
          Ret (Returns
                 (inl (Errorf_w ("service ticket for " +:+ spn +:+ ": ") err)))
      | inr (tkt, skey) =>
      do r <- call (spnego_NewKRB5TokenAPREQ cli tkt skey
                      loginKerberos_flags []);
      match r with
      | inl err => Ret (Returns (inl (Errorf_w "build AP_REQ: " err)))
      | inr gtok =>
      do r <- call (KRB5Token_Marshal gtok);
      match r with
      | inl err => Ret (Returns (inl (Errorf_w "marshal AP_REQ: " err)))
      | inr rawTok =>
      let authz := "Negotiate " +:+ base64_EncodeToString rawTok in
      let loginURL :=
        strings.TrimRight ipaBaseURL "/" +:+ "/ipa/session/login_kerberos" in
      let req :=
        {| Req_Method := "GET";
           Req_URL := loginURL;
           Req_Header := [("Authorization", authz);
                          ("Accept", "application/json")];
           Req_Cookies := [];
           Req_Body := None |} in
      let httpClient := {| HTTPClient_Timeout := 10 |} in
      do r <- call (HTTPClient_Do httpClient req);
      match r with
      | inl err => Ret (Returns (inl (Errorf_w "login_kerberos: " err)))
      | inr resp =>
          if negb (Resp_StatusCode resp =? StatusOK) then
            Ret (Returns
                   (inl (Errorf_d "login_kerberos HTTP " (Resp_StatusCode resp))))
          else
            match findCookie (Resp_Cookies resp) with
            | None => Ret (Returns (inl "no ipa_session cookie returned"))
            | Some ipaCookie => Ret (Returns (inr (httpClient, ipaCookie)))
            end
      end end end end end end end
  end.

Definition UserShow (ipaBaseURL krb5ConfPath ccachePath uid : string)
  : Prog (Answer (Result (list (string * json)))) :=
  do r <- loginKerberos ipaBaseURL krb5ConfPath ccachePath;
  match r with
  | Panics p => Ret (Panics p)
  | Returns (inl err) => Ret (Returns (inl err))
  | Returns (inr (httpClient, cookie)) =>
      let payload :=
        JObject [("method", JString "user_show");
                 ("params", JArray [JArray [JString uid];
                                    JObject [("all", JBool true)]])] in
      let jsonURL := strings.TrimRight ipaBaseURL "/" +:+ "/ipa/session/json" in
      let base := strings.TrimRight ipaBaseURL "/" in
      let req :=
        {| Req_Method := "POST";
           Req_URL := jsonURL;
           Req_Header := [("Content-Type", "application/json");
                          ("Accept", "application/json");
                          ("Referer", base +:+ "/ipa")];
           Req_Cookies := [cookie];
           Req_Body := Some payload |} in
      do r <- call (HTTPClient_Do httpClient req);
      match r with
      | inl err => Ret (Returns (inl (Errorf_w "json rpc: " err)))
      | inr resp =>
          if negb (Resp_StatusCode resp =? StatusOK) then
            Ret (Returns
                   (inl (Errorf_d "json rpc HTTP " (Resp_StatusCode resp)
                         +:+ ": " +:+ Resp_Body resp)))
          else
            match json_Decode_ipaResp (Resp_Body resp) with
            | inl err => Ret (Returns (inl (Errorf_w "decode: " err)))
            | inr out =>
                match ipaResp_Error out with
                | Some e =>
                    Ret (Returns
                           (inl (Errorf_d "ipa error " (ipaError_Code e)
                                 +:+ ": " +:+ ipaError_Message e)))
                | None => Ret (Returns (inr (ipaResp_Result out)))
                end
            end
      end
  end.

(** [ccache := strings.Split(ccacheRaw, ":")[1]]: the index expression
    panics when the slice has fewer than two elements. *)
Definition ccacheOf (ccacheRaw : string) : panic + string :=
  let fields := strings.Split ccacheRaw ":" in
  match fields !! 1%nat with
  | Some ccache => inr ccache
  | None => inl (IndexOutOfRange 1 (length fields))
  end.

(** [IpaUserHandler(w, r)].  The context and its timeout are not
    modelled.  [info] was decoded from a JSON document, so that it
    marshals; a panic below [UserShow] leaves the handler with the writer
    as it is at the call. *)
Definition IpaUserHandler (w : ResponseWriter) (r : Request) : Prog Outcome :=
  let ccacheRaw := Header_Get (Request_Header r) "X_krb5ccname" in
  if String.eqb ccacheRaw "" then
    do _ <- call (log_Println "no delegated credentials");
    Ret (Returned (http_Error w "unauthorized " StatusUnauthorized))
  else
    match ccacheOf ccacheRaw with
    | inl p => Ret (Panicked w p)
    | inr ccache =>
        let uid := Values_Get (Request_Query r) "uid" in
        if String.eqb uid "" then
          Ret (Returned (http_Error w "uid is required" StatusBadRequest))
        else
          do baseURL <- call (os_Getenv "FREEIPA_BASE_URL");
          do krb5Conf <- call (os_Getenv "KRB5_CONFIG_PATH");
          do res <- UserShow baseURL krb5Conf ccache uid;
          match res with
          | Panics p => Ret (Panicked w p)
          | Returns (inl err) =>
              Ret (Returned (http_Error w ("ipa: " +:+ err) StatusBadGateway))
          | Returns (inr info) =>
              let w1 := W_Header_Set w "Content-Type"
                          "application/json; charset=utf-8" in
              let (w2, err) := Encode w1 (inr (JObject info)) in
              let w3 :=
                match err with
                | Some e => http_Error w2 ("ipa: " +:+ e)
                              StatusInternalServerError
                | None => w2
                end in
              Ret (Returned (WriteHeader w3 StatusOK))
          end
    end.

(** [dbData]; its zero value has empty strings and the zero [time.Time]. *)
Record dbData : Type := {
  CurrentUser : string;
  SessionUser : string;
  Timestamp : Time
}.

Definition dbData_zero : dbData :=
  {| CurrentUser := ""; SessionUser := ""; Timestamp := 0 |}.

(** [json.Marshal] of a [dbData]: the object with the names of its field
    tags; it fails when the time does not marshal. *)
Definition dbData_json (d : dbData) : Result json :=
  match Time_MarshalJSON (Timestamp d) with
  | inl err =>
      inl ("json: error calling MarshalJSON for type time.Time: " +:+ err)
  | inr ts =>
      inr (JObject [("current_user", JString (CurrentUser d));
                    ("session_user", JString (SessionUser d));
                    ("timestamp", JString ts)])
  end.

(** [json.Marshal] of a [[]dbData]: the array of its elements, or the
    error of the first element that does not marshal. *)
Fixpoint dbDataList_json (l : list dbData) : Result (list json) :=
  match l with
  | [] => inr []
  | d :: rest =>
      match dbData_json d with
      | inl err => inl err
      | inr v =>
          match dbDataList_json rest with
          | inl err => inl err
          | inr vs => inr (v :: vs)
          end
      end
  end.

(** [row[i].(string)] and [row[i].(time.Time)]: the index expression and
    the type assertion both panic on failure. *)
Definition index_string (row : list any) (i : nat) : panic + string :=
  match row !! i with
  | None => inl (IndexOutOfRange i (length row))
  | Some (any_string s) => inr s
  | Some v => inl (InterfaceConversion v "string")
  end.

Definition index_Time (row : list any) (i : nat) : panic + Time :=
  match row !! i with
  | None => inl (IndexOutOfRange i (length row))
  | Some (any_Time t) => inr t
  | Some v => inl (InterfaceConversion v "time.Time")
  end.

(** The body of the loop over the rows, up to the [append]. *)
Definition rowData (row : list any) : panic + dbData :=
  match index_string row 0 with
  | inl p => inl p
  | inr cu =>
      match index_string row 1 with
      | inl p => inl p
      | inr su =>
          match index_Time row 2 with
          | inl p => inl p
          | inr ts => inr {| CurrentUser := cu; SessionUser := su;
                             Timestamp := ts |}
          end
      end
  end.

(** [for _, row := range rows { ...; userDataList = append(userDataList, userdata) }] *)
Fixpoint appendRows (rows : list (list any)) (userDataList : list dbData)
  : panic + list dbData :=
  match rows with
  | [] => inr userDataList
  | row :: rest =>
      match rowData row with
      | inl p => inl p
      | inr userdata => appendRows rest (userDataList ++ [userdata])
      end
  end.

(** [TestSelectHandler(w, r)]; [rounds] is the bound of the client
    library's token exchange.  A panic below [QueryAsUser] leaves the
    handler with the writer as it is at the call. *)
Definition TestSelectHandler (rounds : nat) (w : ResponseWriter)
    (r : Request) : Prog Outcome :=
  let ccacheRaw := Header_Get (Request_Header r) "X_krb5ccname" in
  if String.eqb ccacheRaw "" then
    Ret (Returned (http_Error w "no delegated credentials"
                     StatusUnauthorized))
  else
    match ccacheOf ccacheRaw with
    | inl p => Ret (Panicked w p)
    | inr ccache =>
        let id := Request_Identity r in
        let w :=
          match id with
          | None => http_Error w "id is required" StatusUnauthorized
          | Some _ => w
          end in
        match id with
        | None => Ret (Panicked w NilDereference)
        | Some ident =>
            let username := Identity_UserName ident in
            do pgHost <- call (os_Getenv "PG_HOST");
            do pgDB <- call (os_Getenv "PG_DB");
            let dbDsn :=
              "host=" +:+ pgHost +:+ " user=" +:+ username +:+
              " dbname=" +:+ pgDB +:+
              " sslmode=require krbsrvname=postgres" in
            do krb5Conf <- call (os_Getenv "KRB5_CONFIG_PATH");
            do res <- QueryAsUser rounds dbDsn ccache krb5Conf
                        "select current_user, session_user, now()" [];
            match res with
            | Panics p => Ret (Panicked w p)
            | Returns (inl err) =>
                Ret (Returned (http_Error w err StatusInternalServerError))
            | Returns (inr rows) =>
                let userDataList := replicate (length rows) dbData_zero in
                match appendRows rows userDataList with
                | inl p => Ret (Panicked w p)
                | inr userDataList =>
                    let w1 := W_Header_Set w "Content-Type"
                                "application/json" in
                    let (w2, err) :=
                      Encode w1
                        match dbDataList_json userDataList with
                        | inl err => inl err
                        | inr elems => inr (JArray elems)
                        end in
                    match err with
                    | Some e =>
                        Ret (Returned (http_Error w2 e
                                         StatusInternalServerError))
                    | None => Ret (Returned w2)
                    end
                end
            end
        end
    end.

End Handlers.

(** ** Observations on traces *)

Section Observations.
Context {L : Lib}.

Definition result {W : World} {A : Type} (x : A * State W * list Event) : A :=
  fst (fst x).
Definition final {W : World} {A : Type} (x : A * State W * list Event)
  : State W := snd (fst x).
Definition trace {W : World} {A : Type} (x : A * State W * list Event)
  : list Event := snd x.


(** The SPN of a ticket request. *)
Definition ticketSPN (e : Event) : option string :=
  match e with
  | Ev c _ =>
      match c with
      | Client_GetServiceTicket _ spn => Some spn
      | _ => None
      end
  end.

(** The ticket a ticket request was answered with. *)
Definition ticketIssued (e : Event) : option Ticket :=
  match e with
  | Ev c t =>
      match c in Call T return T -> option Ticket with
      | Client_GetServiceTicket _ _ =>
          fun t => match t with inr (tkt, _) => Some tkt | inl _ => None end
      | _ => fun _ => None
      end t
  end.

(** The ticket a token was built from. *)
Definition ticketUsed (e : Event) : option Ticket :=
  match e with
  | Ev c _ =>
      match c with
      | spnego_NewKRB5TokenAPREQ _ tkt _ _ _ => Some tkt
      | _ => None
      end
  end.

(** A credential cache being loaded. *)
Definition ccacheLoaded (e : Event) : option string :=
  match e with
  | Ev c _ =>
      match c with
      | credentials_LoadCCache path => Some path
      | _ => None
      end
  end.

(** An HTTP exchange: the request and its answer. *)
Definition httpExchange (e : Event)
  : option (HTTPRequest * Result HTTPResponse) :=
  match e with
  | Ev c t =>
      match c in Call T return T -> option (HTTPRequest * Result HTTPResponse)
      with
      | HTTPClient_Do _ req => fun t => Some (req, t)
      | _ => fun _ => None
      end t
  end.

(** A token transmitted to the database peer. *)
Definition tokenSent (e : Event) : option (list Byte.byte) :=
  match e with
  | Ev c _ =>
      match c with
      | pgconn_sendGSSResponse _ tok => Some tok
      | _ => None
      end
  end.

(** What the client library found at the registration point. *)
Definition providerObserved (e : Event) : option (option Provider) :=
  match e with
  | Ev c t =>
      match c in Call T return T -> option (option Provider) with
      | pgconn_newGSS => fun t => Some t
      | _ => fun _ => None
      end t
  end.

(** A provider closure written to the registration point. *)
Definition providerRegistered (e : Event) : option Provider :=
  match e with
  | Ev c _ =>
      match c with
      | pgconn_RegisterGSSProvider p => Some p
      | _ => None
      end
  end.

(** An outgoing request that carries an [Authorization] header, that is, a
    token. *)
Definition carriesToken (req : HTTPRequest) : bool :=
  existsb (fun h => String.eqb (fst h) "Authorization") (Req_Header req).

Definition tokenRequests (tr : list Event) : list HTTPRequest :=
  List.filter carriesToken (map fst (omap httpExchange tr)).

(** The answer of a query. *)
Definition queryAnswer (e : Event) : option (Result Rows) :=
  match e with
  | Ev c t =>
      match c in Call T return T -> option (Result Rows) with
      | Conn_Query _ _ _ => fun t => Some t
      | _ => fun _ => None
      end t
  end.

(** Calls that load credentials, acquire tickets or tokens, or reach a
    downstream service; [os_Getenv] and [log_Println] are the others. *)
Definition isBrokerCall (e : Event) : bool :=
  match e with
  | Ev c _ =>
      match c with
      | os_Getenv _ => false
      | log_Println _ => false
      | _ => true
      end
  end.

End Observations.

(** ** Requests served concurrently

    The HTTP server runs every request in a goroutine of its own.  The
    goroutines are modelled as a pool of program trees over one shared
    state; a schedule names the goroutine that makes the next call.  Every
    schedule is an execution the Go runtime may produce, since the calls
    are separate function calls with no lock around them. *)

Section Goroutines.
Context {L : Lib} (W : World) {A : Type}.

Definition stepThread (i : nat) (pool : list (Prog A)) (s : State W)
  : list (Prog A) * State W * list (nat * Event) :=
  match pool !! i with
  | Some (Vis c k) =>
      let (t, s') := perform c s in
      (<[i := k t]> pool, s', [(i, Ev c t)])
  | _ => (pool, s, [])
  end.

Fixpoint runSchedule (sched : list nat) (pool : list (Prog A)) (s : State W)
  : list (Prog A) * State W * list (nat * Event) :=
  match sched with
  | [] => (pool, s, [])
  | i :: sched' =>
      let '(pool1, s1, tr1) := stepThread i pool s in
      let '(pool2, s2, tr2) := runSchedule sched' pool1 s1 in
      (pool2, s2, tr1 ++ tr2)
  end.

(** For each goroutine, what the client library found at the registration
    point when that goroutine's connection asked for a provider. *)
Definition observations (tr : list (nat * Event))
  : list (nat * option Provider) :=
  omap (fun ie => match providerObserved (snd ie) with
                  | Some p => Some (fst ie, p)
                  | None => None
                  end) tr.

(** The credential caches loaded in each goroutine. *)
Definition ccachesLoaded (tr : list (nat * Event)) : list (nat * string) :=
  omap (fun ie => match ccacheLoaded (snd ie) with
                  | Some p => Some (fst ie, p)
                  | None => None
                  end) tr.

End Goroutines.

(** ** A concrete world

    Used to run the programs on concrete inputs.  The Kerberos objects are
    named by the credential cache they come from; the environment is a
    clock, which every ticket request advances; the key distribution centre
    issues tickets that end [lifetime] after the request. *)

Module Demo.

Record ticket : Type := {
  ticket_SName : string;
  ticket_Client : string;
  ticket_EndTime : Time
}.

Record token : Type := {
  token_ticket : ticket;
  token_flags : list Z
}.

(** The host of a URL of the form [https://host/...] or [https://host]. *)
Fixpoint upTo (stop : ascii) (s : string) : string :=
  match s with
  | EmptyString => EmptyString
  | String c s' => if Ascii.eqb c stop then EmptyString
                   else String c (upTo stop s')
  end.

Definition parse (s : string) : Result URL :=
  if strings.HasPrefix s "https://" then
    inr {| URL_Hostname :=
             upTo ":" (upTo "/" (String.substring 8 (String.length s - 8) s)) |}
  else inl "unsupported protocol scheme".

(** The times of this world are in UTC and count the seconds from
    January 1 of year 1, so that the zero value is [0]. *)

(** Year, month and day of the day [days] after January 1 of year 1, in
    the proleptic Gregorian calendar. *)
Definition civil (days : Z) : Z * Z * Z :=
  let z := days + 306 in
  let era := z / 146097 in
  let doe := z - era * 146097 in
  let yoe := (doe - doe / 1460 + doe / 36524 - doe / 146096) / 365 in
  let doy := doe - (365 * yoe + yoe / 4 - yoe / 100) in
  let mp := (5 * doy + 2) / 153 in
  let d := doy - (153 * mp + 2) / 5 + 1 in
  let m := if mp <? 10 then mp + 3 else mp - 9 in
  let y := yoe + era * 400 + (if m <=? 2 then 1 else 0) in
  (y, m, d).

Definition pad2 (n : Z) : string :=
  if n <? 10 then "0" +:+ pretty n else pretty n.

Definition pad4 (n : Z) : string :=
  if n <? 10 then "000" +:+ pretty n
  else if n <? 100 then "00" +:+ pretty n
  else if n <? 1000 then "0" +:+ pretty n
  else pretty n.

(** [Time.MarshalJSON] for a time in UTC without fractional seconds: the
    RFC 3339 text, or the error when the year has not four digits. *)
Definition marshalTime (t : Time) : Result string :=
  let '(y, m, d) := civil (t / 86400) in
  let secs := t mod 86400 in
  if (y <? 0) || (9999 <? y) then
    inl "Time.MarshalJSON: year outside of range [0,9999]"
  else
    inr (pad4 y +:+ "-" +:+ pad2 m +:+ "-" +:+ pad2 d +:+ "T" +:+
         pad2 (secs / 3600) +:+ ":" +:+ pad2 (secs mod 3600 / 60) +:+ ":" +:+
         pad2 (secs mod 60) +:+ "Z").

#[export] Instance lib : Lib := {|
  CCache := string;
  Config := string;
  Client := string;
  Ticket := ticket;
  EncryptionKey := Z;
  KRB5Token := token;
  Conn := string;
  Pool := unit;
  config_New := "";
  Ticket_EndTime := ticket_EndTime;
  unicodeToLower := fun s => s;
  url_Parse := parse;
  base64_EncodeToString := fun _ => "YIIC";
  KRB5Token_Unmarshal := fun _ => inl "asn1: structure error";
  json_Decode_ipaResp := fun _ =>
    inr {| ipaResp_Result := [("uid", JArray [JString "jdoe"])];
           ipaResp_Error := None |};
  Time_MarshalJSON := marshalTime;
  Time_MarshalJSON_zero := eq_refl
|}.

Definition lifetime : Z := 10.

Definition getenv (key : string) : string :=
  if String.eqb key "FREEIPA_BASE_URL" then "https://ipa.example.com"
  else if String.eqb key "KRB5_CONFIG_PATH" then "/etc/krb5.conf"
  else if String.eqb key "PG_HOST" then "db.example.com"
  else if String.eqb key "PG_DB" then "app"
  else "".

Definition rows : Rows :=
  {| Rows_values := [inr [any_string "jdoe"; any_string "jdoe"; any_Time 42]];
     Rows_Err := None |}.

Definition oracle (T : Type) (c : Call T) (clock : Z) : T * Z :=
  match c in Call T0 return T0 * Z with
  | os_Getenv key => (getenv key, clock)
  | log_Println _ => (tt, clock)
  | credentials_LoadCCache path => (Load_returns (inr path), clock)
  | config_Load path => (inr path, clock)
  | client_NewFromCCache cc _ _ => (inr cc, clock)
  | Client_GetServiceTicket cl spn =>
      (inr ({| ticket_SName := spn; ticket_Client := cl;
               ticket_EndTime := clock + lifetime |}, 7), clock + 1)
  | spnego_NewKRB5TokenAPREQ _ tkt _ flags _ =>
      (inr {| token_ticket := tkt; token_flags := flags |}, clock)
  | KRB5Token_Marshal _ => (inr [], clock)
  | HTTPClient_Do _ _ =>
      (inr {| Resp_StatusCode := 200;
              Resp_Cookies := [{| Cookie_Name := "ipa_session";
                                  Cookie_Value := "MagBearerToken" |}];
              Resp_Body := "{}" |}, clock)
  | pgconn_RegisterGSSProvider _ => (tt, clock)
  | pgconn_newGSS => (None, clock)
  | pgx_ParseConfig _ =>
      (inr {| Cfg_Host := "DB.example.com.";
              Cfg_KerberosSrvName := "postgres";
              Cfg_KerberosSpn := "";
              Cfg_ConnectTimeout := 0;
              Cfg_TLSConfig := None |}, clock)
  | pgconn_dial _ => (inr "conn", clock)
  | pgconn_sendGSSResponse _ _ => (inr [], clock)
  | pgconn_authResult _ => (None, clock)
  | Conn_Query _ _ _ => (inr rows, clock)
  | Rows_Close _ => (tt, clock)
  | Conn_Close _ => (tt, clock)
  | pgxpool_ParseConfig _ => (inl "cannot parse", clock)
  | pgxpool_NewWithConfig _ => (inr tt, clock)
  end.

Definition world : World := {| Env := Z; answer := oracle |}.

(** The process just started: nothing registered, the clock at [0]. *)
Definition start : State world :=
  Build_State world None 0.

Definition writer : ResponseWriter :=
  {| W_Header := ∅; W_Status := None; W_Body := []; W_writeErr := None |}.

Definition request (ccname : option string) (id : option Identity) : Request :=
  {| Request_Header :=
       match ccname with
       | Some v => {[ "X_krb5ccname" := [v] ]}
       | None => ∅
       end;
     Request_Query := {[ "uid" := ["jdoe"] ]};
     Request_Identity := id |}.

Definition jdoe : Identity :=
  {| Identity_UserName := "jdoe"; Identity_Domain := "EXAMPLE.COM" |}.

(** Requests: without the header, with a value without a colon, with a
    usable value and an identity, with a usable value and no identity. *)
Definition request_bare : Request := request None (Some jdoe).
Definition request_nocolon : Request :=
  request (Some "/tmp/krb5cc_1000") (Some jdoe).
Definition request_jdoe : Request :=
  request (Some "FILE:/tmp/krb5cc_1000") (Some jdoe).
Definition request_anonymous : Request :=
  request (Some "FILE:/tmp/krb5cc_1000") None.

(** Two database queries on behalf of two users. *)
Definition query_alice : Prog (Answer (Result (list (list any)))) :=
  QueryAsUser 1 "host=db.example.com user=alice dbname=app"
    "/tmp/krb5cc_alice" "/etc/krb5.conf" "select current_user" [].
Definition query_bob : Prog (Answer (Result (list (list any)))) :=
  QueryAsUser 1 "host=db.example.com user=bob dbname=app"
    "/tmp/krb5cc_bob" "/etc/krb5.conf" "select current_user" [].

(** A login against a base URL whose host is written with capitals and
    as a fully qualified name with its final dot, and one against the
    usual spelling. *)
Definition login_dotted : Prog (Answer (Result (HTTPClient * Cookie))) :=
  loginKerberos "https://IPA.Example.COM./" "/etc/krb5.conf"
    "/tmp/krb5cc_1000".
Definition login_plain : Prog (Answer (Result (HTTPClient * Cookie))) :=
  loginKerberos "https://ipa.example.com" "/etc/krb5.conf"
    "/tmp/krb5cc_1000".

End Demo.

(** ** Further observations on traces *)

Section MoreObservations.
Context {L : Lib}.

(** A realm configuration file being loaded. *)
Definition configLoaded (e : Event) : option string :=
  match e with
  | Ev c _ =>
      match c with
      | config_Load path => Some path
      | _ => None
      end
  end.

(** A credential cache whose parsing panicked: its path and the panic. *)
Definition loadPanic (e : Event) : option (string * panic) :=
  match e with
  | Ev c t =>
      match c in Call T return T -> option (string * panic) with
      | credentials_LoadCCache path =>
          fun t => match t with
                   | Load_panics i n => Some (path, IndexOutOfRange i n)
                   | Load_returns _ => None
                   end
      | _ => fun _ => None
      end t
  end.

(** A Kerberos client being built: its configuration and options. *)
Definition clientBuilt (e : Event) : option (Config * list ClientSetting) :=
  match e with
  | Ev c _ =>
      match c with
      | client_NewFromCCache _ cfg opts => Some (cfg, opts)
      | _ => None
      end
  end.

(** The bytes of a token that was serialized. *)
Definition marshalled (e : Event) : option (list Byte.byte) :=
  match e with
  | Ev c t =>
      match c in Call T return T -> option (list Byte.byte) with
      | KRB5Token_Marshal _ =>
          fun t => match t with inr raw => Some raw | inl _ => None end
      | _ => fun _ => None
      end t
  end.

(** [Close] being called on a row stream or on a connection. *)
Inductive Closed : Type :=
| ClosedRows (r : Rows)
| ClosedConn (c : Conn).

Definition closed (e : Event) : option Closed :=
  match e with
  | Ev c _ =>
      match c with
      | Rows_Close r => Some (ClosedRows r)
      | Conn_Close c0 => Some (ClosedConn c0)
      | _ => None
      end
  end.

(** A connection handed back to the caller: the peer's verdict after the
    token exchange was positive. *)
Definition established (e : Event) : option Conn :=
  match e with
  | Ev c t =>
      match c in Call T return T -> option Conn with
      | pgconn_authResult c0 =>
          fun t => match t with None => Some c0 | Some _ => None end
      | _ => fun _ => None
      end t
  end.

(** The configuration a pool is created from. *)
Definition poolCreated (e : Event) : option PoolConfig :=
  match e with
  | Ev c _ =>
      match c with
      | pgxpool_NewWithConfig pc => Some pc
      | _ => None
      end
  end.

(** An environment variable being read: its name and the value found. *)
Definition envRead (e : Event) : option (string * string) :=
  match e with
  | Ev c t =>
      match c in Call T return T -> option (string * string) with
      | os_Getenv key => fun t => Some (key, t)
      | _ => fun _ => None
      end t
  end.

(** The JSON-RPC payload of [UserShow]. *)
Definition userShowPayload (uid : string) : json :=
  JObject [("method", JString "user_show");
           ("params", JArray [JArray [JString uid];
                              JObject [("all", JBool true)]])].

(** A byte string without upper-case ASCII letters. *)
Fixpoint noUpper (s : string) : bool :=
  match s with
  | EmptyString => true
  | String c s' => negb (strings.isUpperByte c) && noUpper s'
  end.

End MoreObservations.

(** ** A concrete world with knobs

    The world of [Demo], with the answers of the services taken from a
    script, so that failures can be run.  The credential cache
    [/dev/null] is an empty file. *)

Module Scenario.
Import Demo.

Record script : Type := {
  s_getenv : string -> string;
  s_ccache : string -> Loaded string;
  s_config : string -> Result string;
  s_http : HTTPRequest -> Result HTTPResponse;
  s_parse : string -> Result ConnConfig;
  s_auth : option error;
  s_query : Result Rows;
  s_pool : string -> Result PoolConfig
}.

(** Decoding of the JSON-RPC answers used in the scripts. *)
Definition decode (body : string) : Result ipaResp :=
  if String.eqb body "not json" then inl "invalid character"
  else if String.eqb body "{error}" then
    inr {| ipaResp_Result := [];
           ipaResp_Error := Some {| ipaError_Code := 4001;
                                    ipaError_Message := "jdoe: user not found" |} |}
  else
    inr {| ipaResp_Result := [("uid", JArray [JString "jdoe"]);
                              ("mail", JArray [JString "jdoe@example.com"])];
           ipaResp_Error := None |}.

#[export] Instance lib : Lib := {|
  CCache := string;
  Config := string;
  Client := string;
  Ticket := ticket;
  EncryptionKey := Z;
  KRB5Token := token;
  Conn := string;
  Pool := PoolConfig;
  config_New := "<default>";
  Ticket_EndTime := ticket_EndTime;
  unicodeToLower := fun s => s;
  url_Parse := parse;
  base64_EncodeToString := fun _ => "YIIC";
  KRB5Token_Unmarshal := fun _ => inl "asn1: structure error";
  json_Decode_ipaResp := decode;
  Time_MarshalJSON := marshalTime;
  Time_MarshalJSON_zero := eq_refl
|}.

Definition oracle (sc : script) (T : Type) (c : Call T) (clock : Z) : T * Z :=
  match c in Call T0 return T0 * Z with
  | os_Getenv key => (s_getenv sc key, clock)
  | log_Println _ => (tt, clock)
  | credentials_LoadCCache path => (s_ccache sc path, clock)
  | config_Load path => (s_config sc path, clock)
  | client_NewFromCCache cc _ _ => (inr cc, clock)
  | Client_GetServiceTicket cl spn =>
      (inr ({| ticket_SName := spn; ticket_Client := cl;
               ticket_EndTime := clock + lifetime |}, 7), clock + 1)
  | spnego_NewKRB5TokenAPREQ _ tkt _ flags _ =>
      (inr {| token_ticket := tkt; token_flags := flags |}, clock)
  | KRB5Token_Marshal _ => (inr [Byte.x60; Byte.x82], clock)
  | HTTPClient_Do _ req => (s_http sc req, clock)
  | pgconn_RegisterGSSProvider _ => (tt, clock)
  | pgconn_newGSS => (None, clock)
  | pgx_ParseConfig dsn => (s_parse sc dsn, clock)
  | pgconn_dial _ => (inr "conn", clock)
  | pgconn_sendGSSResponse _ _ => (inr [], clock)
  | pgconn_authResult _ => (s_auth sc, clock)
  | Conn_Query _ _ _ => (s_query sc, clock)
  | Rows_Close _ => (tt, clock)
  | Conn_Close _ => (tt, clock)
  | pgxpool_ParseConfig dsn => (s_pool sc dsn, clock)
  | pgxpool_NewWithConfig pc => (inr pc, clock)
  end.

Definition world (sc : script) : World := {| Env := Z; answer := oracle sc |}.

Definition start (sc : script) : State (world sc) :=
  Build_State (world sc) None 0.

Definition session : Cookie :=
  {| Cookie_Name := "ipa_session"; Cookie_Value := "MagBearerToken" |}.

Definition connConfig : ConnConfig :=
  {| Cfg_Host := "db.example.com";
     Cfg_KerberosSrvName := "postgres";
     Cfg_KerberosSpn := "";
     Cfg_ConnectTimeout := 0;
     Cfg_TLSConfig := None |}.

(** The directory server: the login answers [loginStatus] with the session
    cookie, the JSON-RPC endpoint answers [rpcStatus] with [rpcBody]. *)
Definition directory (loginStatus rpcStatus : Z) (rpcBody : string)
    (req : HTTPRequest) : Result HTTPResponse :=
  if String.eqb (Req_Method req) "GET" then
    inr {| Resp_StatusCode := loginStatus;
           Resp_Cookies := [{| Cookie_Name := "other"; Cookie_Value := "x" |};
                            session];
           Resp_Body := "" |}
  else
    inr {| Resp_StatusCode := rpcStatus;
           Resp_Cookies := [];
           Resp_Body := rpcBody |}.

Definition scripted (conf : string) (http : HTTPRequest -> Result HTTPResponse)
    (parse : Result ConnConfig) (auth : option error) (query : Result Rows)
  : script :=
  {| s_getenv := fun key =>
       if String.eqb key "KRB5_CONFIG_PATH" then conf else getenv key;
     s_ccache := fun path =>
       if String.eqb path "/dev/null" then Load_panics 0 0
       else Load_returns (inr path);
     s_config := fun path => inr path;
     s_http := http;
     s_parse := fun _ => parse;
     s_auth := auth;
     s_query := query;
     s_pool := fun _ =>
       inr {| Pool_ConnConfig := connConfig;
              Pool_MaxConns := 16;
              Pool_MinConns := 4;
              Pool_MaxConnLifetime := 3600;
              Pool_HealthCheckPeriod := 60;
              Pool_DialTimeout := None |} |}.

(** Everything answers well. *)
Definition happy : script :=
  scripted "/etc/krb5.conf" (directory 200 200 "{}") (inr connConfig) None
    (inr rows).

(** The directory rejects the login with 403. *)
Definition loginRejected : script :=
  scripted "/etc/krb5.conf" (directory 403 200 "{}") (inr connConfig) None
    (inr rows).

(** The directory answers the call with an error envelope. *)
Definition userUnknown : script :=
  scripted "/etc/krb5.conf" (directory 200 200 "{error}") (inr connConfig)
    None (inr rows).

(** No realm configuration path in the environment. *)
Definition noConfigPath : script :=
  scripted "" (directory 200 200 "{}") (inr connConfig) None (inr rows).

(** The connection string does not parse. *)
Definition badDSN : script :=
  scripted "/etc/krb5.conf" (directory 200 200 "{}")
    (inl "cannot parse dsn") None (inr rows).

(** The query yields a good row and then a row with a NULL. *)
Definition nullRow : script :=
  scripted "/etc/krb5.conf" (directory 200 200 "{}") (inr connConfig) None
    (inr {| Rows_values :=
              [inr [any_string "jdoe"; any_string "jdoe"; any_Time 42];
               inr [any_string "jdoe"; any_nil; any_Time 43]];
            Rows_Err := None |}).

(** The directory answers the login with 204 and the session cookie. *)
Definition loginNoContent : script :=
  scripted "/etc/krb5.conf" (directory 204 200 "{}") (inr connConfig) None
    (inr rows).

(** The first instant of year 10000, and a query that yields it. *)
Definition year10000 : Time := 315537897600.

Definition lateRows : Rows :=
  {| Rows_values := [inr [any_string "jdoe"; any_string "jdoe";
                          any_Time year10000]];
     Rows_Err := None |}.

Definition lateRow : script :=
  scripted "/etc/krb5.conf" (directory 200 200 "{}") (inr connConfig) None
    (inr lateRows).

(** The stream breaks after the first row. *)
Definition brokenStream : script :=
  scripted "/etc/krb5.conf" (directory 200 200 "{}") (inr connConfig) None
    (inr {| Rows_values :=
              [inr [any_string "jdoe"; any_string "jdoe"; any_Time 42];
               inl "unexpected EOF";
               inr [any_string "late"; any_string "late"; any_Time 44]];
            Rows_Err := None |}).

(** A request whose credential cache is an empty file. *)
Definition request_emptyCache : Request :=
  {| Request_Header := {[ "X_krb5ccname" := ["FILE:/dev/null"] ]};
     Request_Query := {[ "uid" := ["jdoe"] ]};
     Request_Identity := Some jdoe |}.

Definition request_nouid : Request :=
  {| Request_Header := {[ "X_krb5ccname" := ["FILE:/tmp/krb5cc_1000"] ]};
     Request_Query := ∅;
     Request_Identity := Some jdoe |}.

(** The two requests [UserShow] sends for the base URL of the scripts and
    the uid [jdoe], and the answers of the directory. *)
Definition loginRequest_sent : HTTPRequest :=
  {| Req_Method := "GET";
     Req_URL := "https://ipa.example.com/ipa/session/login_kerberos";
     Req_Header := [("Authorization", "Negotiate YIIC");
                    ("Accept", "application/json")];
     Req_Cookies := [];
     Req_Body := None |}.

Definition rpcRequest_sent : HTTPRequest :=
  {| Req_Method := "POST";
     Req_URL := "https://ipa.example.com/ipa/session/json";
     Req_Header := [("Content-Type", "application/json");
                    ("Accept", "application/json");
                    ("Referer", "https://ipa.example.com/ipa")];
     Req_Cookies := [session];
     Req_Body := Some (userShowPayload "jdoe") |}.

Definition loginResponse (status : Z) : HTTPResponse :=
  {| Resp_StatusCode := status;
     Resp_Cookies := [{| Cookie_Name := "other"; Cookie_Value := "x" |};
                      session];
     Resp_Body := "" |}.

Definition rpcResponse (body : string) : HTTPResponse :=
  {| Resp_StatusCode := 200; Resp_Cookies := []; Resp_Body := body |}.

(** The rows of the scripts [nullRow] and [brokenStream]. *)
Definition goodRow : list any :=
  [any_string "jdoe"; any_string "jdoe"; any_Time 42].
Definition nullRows : Rows :=
  {| Rows_values := [inr goodRow;
                     inr [any_string "jdoe"; any_nil; any_Time 43]];
     Rows_Err := None |}.
Definition brokenRows : Rows :=
  {| Rows_values := [inr goodRow;
                     inl "unexpected EOF";
                     inr [any_string "late"; any_string "late"; any_Time 44]];
     Rows_Err := None |}.

End Scenario.

(** * Properties *)

Arguments perform : simpl never.

(** ** The string functions on examples *)

Example ToLower_ex f : strings.ToLower f "IPA.Example.COM." = "ipa.example.com.".
Proof. reflexivity. Qed.
Example TrimSuffix_ex : strings.TrimSuffix "ipa.example.com." "." = "ipa.example.com".
Proof. reflexivity. Qed.
Example TrimSuffix_ex2 : strings.TrimSuffix "ipa.example.com.." "." = "ipa.example.com.".
Proof. reflexivity. Qed.
Example TrimRight_ex : strings.TrimRight "https://ipa//" "/" = "https://ipa".
Proof. reflexivity. Qed.
Example Split_ex : strings.Split "FILE:/tmp/krb5cc_1000" ":" = ["FILE"; "/tmp/krb5cc_1000"].
Proof. reflexivity. Qed.
Example Split_ex2 : strings.Split "a::b:" ":" = ["a"; ""; "b"; ""].
Proof. reflexivity. Qed.

Section RunLemmas.
Context {L : Lib} (W : World).

Lemma run_bind (A B : Type) (p : Prog A) (f : A -> Prog B) (s : State W) :
  run (bind p f) s =
  let '(a, s1, tr1) := run p s in
  let '(b, s2, tr2) := run (f a) s1 in
  (b, s2, tr1 ++ tr2).
Proof.
  revert s. induction p as [a | T c k IH]; intros s; simpl.
  - destruct (run (f a) s) as [[b s2] tr2]. reflexivity.
  - destruct (perform c s) as [t s1]. rewrite IH.
    destruct (run (k t) s1) as [[a s2] tr1].
    destruct (run (f a) s2) as [[b s3] tr2]. reflexivity.
Qed.

End RunLemmas.

(** Case analysis on the answers of the world along a run. *)
Ltac answer_step :=
  match goal with
  | |- context [perform ?c ?s] =>
      let t := fresh "t" in
      let s' := fresh "s" in
      destruct (perform c s) as [t s'] eqn:?
  | |- context [match ?x with _ => _ end] => is_var x; destruct x
  | |- context [match ?x with _ => _ end] =>
      lazymatch x with
      | context [run _ _] => fail
      | context [perform _ _] => fail
      | context [match _ with _ => _ end] => fail
      | _ => destruct x eqn:?
      end
  end.

Ltac run_norm :=
  cbn [run bind call negb gssRounds cl
       GSS_GetInitToken GSS_GetInitTokenFromSPN GSS_Continue
       gssFromCCache_GSS GetInitToken GetInitTokenFromSPN];
  try unfold Continue.

Ltac answer_cases := repeat (run_norm; answer_step); run_norm.

Section Wire.
Context {L : Lib}.

(** C5.  [Continue] returns [done = true] with no output token and no
    error for every input, whether or not the input parses as a Kerberos
    token; hence a connection attempt driven by the client library
    transmits at most one token, in every world and for every bound on the
    rounds, [TestSelectHandler] as a whole transmits at most one, and with
    a bound of at least one round the exchange is never left unfinished. *)
Theorem Continue_done_single_token :
  forall (g : gssFromCCache) (inToken : list Byte.byte),
    Continue g inToken = Ret (true, [], None)
    /\ forall (W : World) (s : State W) (rounds : nat) (c : Conn)
              (cfg : ConnConfig),
         (length (omap tokenSent
                    (trace (run (ConnectConfig Provider_call rounds cfg) s)))
          <= 1)%nat
         /\ (forall (w : ResponseWriter) (r : Request),
                (length (omap tokenSent
                           (trace (run (TestSelectHandler rounds w r) s)))
                 <= 1)%nat)
         /\ result (run (gssAuth Provider_call (S rounds) c cfg) s)
            <> gssUnfinished.
Proof.
  intros g inToken. split.
  - unfold Continue. destruct (KRB5Token_Unmarshal inToken); reflexivity.
  - intros W s rounds c cfg. split; [| split].
    + unfold ConnectConfig, gssAuth, Provider_call, NewGSSFromCCache, trace.
      destruct rounds as [| n].
      all: answer_cases; cbn; lia.
    + intros w r.
      unfold TestSelectHandler, QueryAsUser, ConnectConfig, gssAuth,
        Provider_call, NewGSSFromCCache, trace.
      destruct rounds as [| n].
      all: answer_cases; cbn; lia.
    + unfold gssAuth, Provider_call, NewGSSFromCCache, result.
      answer_cases; cbn; congruence.
Qed.

End Wire.

(** ** The credential-cache header *)

Section SplitLemmas.

Lemma Split_nonempty (s : string) (sep : ascii) : strings.Split s sep <> [].
Proof.
  destruct s as [| c s]; simpl; [discriminate |].
  destruct (Ascii.eqb c sep); [discriminate |].
  destruct (strings.Split s sep); discriminate.
Qed.

Lemma Split_without_sep (s : string) (sep : ascii) :
  strings.ContainsByte s sep = false -> strings.Split s sep = [s].
Proof.
  induction s as [| c s IH]; simpl; intros H; [reflexivity |].
  destruct (Ascii.eqb c sep); simpl in H; [discriminate |].
  rewrite (IH H). reflexivity.
Qed.

Lemma Split_with_sep (s : string) (sep : ascii) :
  strings.ContainsByte s sep = true ->
  exists first second rest, strings.Split s sep = first :: second :: rest.
Proof.
  induction s as [| c s IH]; simpl; intros H; [discriminate |].
  destruct (Ascii.eqb c sep); simpl in H.
  - destruct (strings.Split s sep) as [| f fs] eqn:E.
    + exfalso. exact (Split_nonempty s sep E).
    + exists EmptyString, f, fs. reflexivity.
  - destruct (IH H) as (f & g & rest & E). rewrite E.
    exists (String c f), g, rest. reflexivity.
Qed.

(** The fields of [Split], joined again with the separator, give the
    string back. *)
Lemma Join_Split (s : string) (sep : ascii) :
  strings.Join (strings.Split s sep) sep = s.
Proof.
  induction s as [| c s IH]; [reflexivity |].
  simpl. destruct (Ascii.eqb_spec c sep) as [-> | Hne].
  - destruct (strings.Split s sep) as [| f fs] eqn:E.
    + exfalso. exact (Split_nonempty s sep E).
    + change (strings.Join (EmptyString :: f :: fs) sep)
        with (String sep (strings.Join (f :: fs) sep)).
      rewrite IH. reflexivity.
  - destruct (strings.Split s sep) as [| f fs] eqn:E.
    + exfalso. exact (Split_nonempty s sep E).
    + destruct fs as [| g fs].
      * simpl in *. rewrite IH. reflexivity.
      * change (strings.Join (String c f :: g :: fs) sep)
          with (String c (strings.Join (f :: g :: fs) sep)).
        rewrite IH. reflexivity.
Qed.

End SplitLemmas.

Section HeaderProperties.
Context {L : Lib}.

Lemma http_Error_status (w : ResponseWriter) (msg : string) (code : Z) :
  W_Status w = None -> W_Status (http_Error w msg code) = Some code.
Proof.
  intros H. unfold http_Error, Write, WriteHeader, W_Header_Set. simpl.
  rewrite H. simpl. destruct (W_writeErr w); reflexivity.
Qed.

(** An absent header and a header whose first value is empty both read as
    the empty string. *)
Lemma Header_Get_absent_or_empty (h : gmap string (list string))
    (key : string) (rest : list string) :
  h !! key = None \/ h !! key = Some [] \/ h !! key = Some ("" :: rest) ->
  Header_Get h key = "".
Proof.
  unfold Header_Get. intros [-> | [-> | ->]]; reflexivity.
Qed.

(** C7.  When the request carries no credential-cache header, or an
    empty one ([Header_Get] answers the empty string in both cases), each
    handler returns with status 401 written on a fresh writer;
    [IpaUserHandler] makes one call, to the logger, and
    [TestSelectHandler] makes none: no credential cache is loaded, no
    ticket is requested and no downstream service is called, in any
    world. *)
Theorem missing_credential_header_unauthorized :
  forall (rounds : nat) (w : ResponseWriter) (r : Request)
         (W : World) (s : State W),
    Header_Get (Request_Header r) "X_krb5ccname" = "" ->
    W_Status w = None ->
    (result (run (IpaUserHandler w r) s)
       = Returned (http_Error w "unauthorized " StatusUnauthorized)
     /\ W_Status (Outcome_writer (result (run (IpaUserHandler w r) s)))
        = Some StatusUnauthorized
     /\ trace (run (IpaUserHandler w r) s)
        = [Ev (log_Println "no delegated credentials") tt]
     /\ List.filter isBrokerCall (trace (run (IpaUserHandler w r) s)) = [])
    /\ (TestSelectHandler rounds w r
          = Ret (Returned (http_Error w "no delegated credentials"
                             StatusUnauthorized))
        /\ W_Status (Outcome_writer
                       (result (run (TestSelectHandler rounds w r) s)))
           = Some StatusUnauthorized
        /\ trace (run (TestSelectHandler rounds w r) s) = []).
Proof.
  intros rounds w r W s Hget Hfresh.
  unfold IpaUserHandler, TestSelectHandler. rewrite Hget. simpl.
  destruct (perform (log_Println "no delegated credentials") s) as [[] s1].
  unfold result, trace. simpl.
  rewrite !http_Error_status by assumption.
  repeat split; reflexivity.
Qed.

(** C8.  With a non-empty header value, both handlers take the element
    of index 1 of [Split(value, ":")].  When the value contains a colon
    the split has at least two fields and the credential-cache path is
    the second one: it is the only cache [IpaUserHandler] loads and the
    cache of the only provider [TestSelectHandler] registers, in any
    world; when it contains none the split is the one-element
    slice holding the value, the index expression is out of range, and
    each handler panics before it has written anything or made any
    call. *)
Theorem ccache_field_needs_colon :
  forall (rounds : nat) (w : ResponseWriter) (r : Request),
    let ccacheRaw := Header_Get (Request_Header r) "X_krb5ccname" in
    ccacheRaw <> "" ->
    (strings.ContainsByte ccacheRaw ":" = true ->
     exists first ccache rest,
       strings.Split ccacheRaw ":" = first :: ccache :: rest
       /\ ccacheOf ccacheRaw = inr ccache
       /\ forall (W : World) (s : State W),
            Forall (eq ccache)
              (omap ccacheLoaded (trace (run (IpaUserHandler w r) s)))
            /\ Forall (fun p => Provider_ccachePath p = ccache)
                 (omap providerRegistered
                    (trace (run (TestSelectHandler rounds w r) s))))
    /\ (strings.ContainsByte ccacheRaw ":" = false ->
        strings.Split ccacheRaw ":" = [ccacheRaw]
        /\ IpaUserHandler w r = Ret (Panicked w (IndexOutOfRange 1 1))
        /\ TestSelectHandler rounds w r
           = Ret (Panicked w (IndexOutOfRange 1 1))).
Proof.
  intros rounds w r ccacheRaw Hne.
  assert (Heqb : String.eqb ccacheRaw "" = false)
    by (apply String.eqb_neq; exact Hne).
  split; intros Hc.
  - destruct (Split_with_sep _ _ Hc) as (f & g & rest & E).
    assert (Hcc : ccacheOf ccacheRaw = inr g)
      by (unfold ccacheOf; rewrite E; reflexivity).
    exists f, g, rest. split; [exact E |]. split; [exact Hcc |].
    intros W s. split.
    + unfold IpaUserHandler, UserShow, loginKerberos, trace.
      fold ccacheRaw. rewrite Heqb, Hcc.
      answer_cases; cbn; repeat constructor.
    + unfold TestSelectHandler, QueryAsUser, ConnectConfig, gssAuth,
        Provider_call, NewGSSFromCCache, trace.
      fold ccacheRaw. rewrite Heqb, Hcc.
      destruct rounds as [| n].
      all: answer_cases; cbn; repeat constructor.
  - pose proof (Split_without_sep _ _ Hc) as E.
    split; [exact E |].
    unfold IpaUserHandler, TestSelectHandler.
    fold ccacheRaw. rewrite Heqb. unfold ccacheOf. rewrite E.
    split; reflexivity.
Qed.

End HeaderProperties.

(** ** The database handler *)

Section TestSelect.
Context {L : Lib}.

Lemma index_string_panic (row : list any) (i : nat) (p : panic) :
  index_string row i = inl p -> p <> NilDereference.
Proof.
  unfold index_string.
  destruct (row !! i) as [[] |]; intros H; inversion H; discriminate.
Qed.

Lemma index_Time_panic (row : list any) (i : nat) (p : panic) :
  index_Time row i = inl p -> p <> NilDereference.
Proof.
  unfold index_Time.
  destruct (row !! i) as [[] |]; intros H; inversion H; discriminate.
Qed.

Lemma rowData_panic (row : list any) (p : panic) :
  rowData row = inl p -> p <> NilDereference.
Proof.
  unfold rowData.
  destruct (index_string row 0) as [q | cu] eqn:E0.
  { intros H. inversion H; subst. exact (index_string_panic _ _ E0). }
  destruct (index_string row 1) as [q | su] eqn:E1.
  { intros H. inversion H; subst. exact (index_string_panic _ _ E1). }
  destruct (index_Time row 2) as [q | ts] eqn:E2.
  { intros H. inversion H; subst. exact (index_Time_panic _ _ E2). }
  discriminate.
Qed.

Lemma appendRows_panic (rows : list (list any)) (acc : list dbData) (p : panic) :
  appendRows rows acc = inl p -> p <> NilDereference.
Proof.
  revert acc. induction rows as [| row rows IH]; intros acc; simpl.
  - discriminate.
  - destruct (rowData row) as [q | d] eqn:E.
    + intros H. inversion H; subst. exact (rowData_panic _ E).
    + apply IH.
Qed.

Lemma appendRows_app (rows : list (list any)) (acc ds : list dbData) :
  Forall2 (fun row d => rowData row = inr d) rows ds ->
  appendRows rows acc = inr (acc ++ ds).
Proof.
  intros H. revert acc.
  induction H as [| row d rows ds Hrow _ IH]; intros acc; simpl.
  - rewrite app_nil_r. reflexivity.
  - rewrite Hrow, IH, <- app_assoc. reflexivity.
Qed.

(** C9.  With a usable credential-cache header and no identity in the
    request context, [TestSelectHandler] writes the 401 response and then
    panics on the nil identity, without having made any call; with an
    identity present it never panics that way, in any world. *)
Theorem TestSelectHandler_nil_identity :
  forall (rounds : nat) (w : ResponseWriter) (r : Request) (ccache : string),
    Header_Get (Request_Header r) "X_krb5ccname" <> "" ->
    ccacheOf (Header_Get (Request_Header r) "X_krb5ccname") = inr ccache ->
    (Request_Identity r = None ->
     TestSelectHandler rounds w r
       = Ret (Panicked (http_Error w "id is required" StatusUnauthorized)
                NilDereference)
     /\ (W_Status w = None ->
         W_Status (http_Error w "id is required" StatusUnauthorized)
         = Some StatusUnauthorized))
    /\ (forall (ident : Identity) (W : World) (s : State W)
               (w' : ResponseWriter),
          Request_Identity r = Some ident ->
          result (run (TestSelectHandler rounds w r) s)
          <> Panicked w' NilDereference).
Proof.
  intros rounds w r ccache Hne Hcc.
  assert (Heqb : String.eqb (Header_Get (Request_Header r) "X_krb5ccname") ""
                 = false) by (apply String.eqb_neq; exact Hne).
  split.
  - intros Hid. split.
    + unfold TestSelectHandler. rewrite Heqb, Hcc, Hid. reflexivity.
    + apply http_Error_status.
  - intros ident W s w' Hid.
    unfold TestSelectHandler. rewrite Heqb, Hcc, Hid.
    unfold QueryAsUser, ConnectConfig, gssAuth, Provider_call,
      NewGSSFromCCache, result.
    destruct rounds as [| n].
    all: answer_cases; cbn; try discriminate.
    all: intros Hp; inversion Hp; subst;
      match goal with
      | H : appendRows _ _ = inl NilDereference |- _ =>
          exact (appendRows_panic _ _ H eq_refl)
      end.
Qed.

Lemma Encode_no_error (w : ResponseWriter) (v : json) :
  W_writeErr w = None ->
  exists w', Encode w (inr v) = (w', None) /\ W_Body w' = W_Body w ++ [Json v].
Proof.
  intros H. unfold Encode, Write, WriteHeader.
  destruct (W_Status w); simpl; rewrite H; eexists; split; reflexivity.
Qed.

(** Marshalling a slice: the elements one after the other, up to the first
    that does not marshal. *)
Lemma dbDataList_json_app (l1 l2 : list dbData) :
  dbDataList_json (l1 ++ l2)
  = match dbDataList_json l1 with
    | inl err => inl err
    | inr v1 =>
        match dbDataList_json l2 with
        | inl err => inl err
        | inr v2 => inr (v1 ++ v2)
        end
    end.
Proof.
  induction l1 as [| d l1 IH]; simpl.
  - destruct (dbDataList_json l2); reflexivity.
  - destruct (dbData_json d); [reflexivity |].
    rewrite IH. destruct (dbDataList_json l1); [reflexivity |].
    destruct (dbDataList_json l2); reflexivity.
Qed.

Lemma dbDataList_json_zero (n : nat) :
  dbDataList_json (replicate n dbData_zero)
  = inr (replicate n
           (JObject [("current_user", JString "");
                     ("session_user", JString "");
                     ("timestamp", JString "0001-01-01T00:00:00Z")])).
Proof.
  induction n as [| n IH]; simpl; [reflexivity |].
  unfold dbData_json. simpl. rewrite Time_MarshalJSON_zero, IH. reflexivity.
Qed.

Lemma dbDataList_json_all (ds : list dbData) (stamps : list string) :
  Forall2 (fun d ts => Time_MarshalJSON (Timestamp d) = inr ts) ds stamps ->
  dbDataList_json ds
  = inr (zip_with
           (fun d ts => JObject [("current_user", JString (CurrentUser d));
                                 ("session_user", JString (SessionUser d));
                                 ("timestamp", JString ts)])
           ds stamps).
Proof.
  induction 1 as [| d ts ds stamps Hd _ IH]; simpl; [reflexivity |].
  unfold dbData_json. rewrite Hd, IH. reflexivity.
Qed.

Lemma dbDataList_json_first_bad (good : list dbData) (stamps : list string)
    (d : dbData) (rest : list dbData) (err : error) :
  Forall2 (fun d ts => Time_MarshalJSON (Timestamp d) = inr ts) good stamps ->
  Time_MarshalJSON (Timestamp d) = inl err ->
  dbDataList_json (good ++ d :: rest)
  = inl ("json: error calling MarshalJSON for type time.Time: " +:+ err).
Proof.
  intros Hgood Hbad.
  rewrite dbDataList_json_app, (dbDataList_json_all Hgood). simpl.
  unfold dbData_json. rewrite Hbad. reflexivity.
Qed.

Lemma map_replicate (A B : Type) (f : A -> B) (n : nat) (x : A) :
  map f (replicate n x) = replicate n (f x).
Proof. induction n as [| n IH]; simpl; [reflexivity | rewrite IH; reflexivity]. Qed.

(** C10.  When the query is answered with a row stream that yields N rows
    without error, and every row holds a string, a string and a time in
    its first three columns, the slice handed to the encoder holds 2 N
    records: N zero-valued ones, from the slice created with length N,
    followed by the N decoded ones.  When the time of every row marshals,
    [TestSelectHandler] returns after writing one JSON array of these
    2 N objects, the first N with empty strings and the zero time.  When
    the time of some row does not marshal (its year is outside 0..9999),
    no array is written: the handler answers with the error of
    [Time.MarshalJSON] and, on a fresh writer, status 500. *)
Theorem TestSelectHandler_encodes_zero_records :
  forall (rounds : nat) (w : ResponseWriter) (r : Request)
         (W : World) (s : State W)
         (rs : Rows) (rows : list (list any)) (ds : list dbData),
    let x := run (TestSelectHandler rounds w r) s in
    let record := fun (cu su ts : string) =>
      JObject [("current_user", JString cu);
               ("session_user", JString su);
               ("timestamp", JString ts)] in
    W_writeErr w = None ->
    In (inr rs) (omap queryAnswer (trace x)) ->
    collectRows (Rows_values rs) [] = inr rows ->
    Rows_Err rs = None ->
    Forall2 (fun row d => rowData row = inr d) rows ds ->
    (forall stamps : list string,
        Forall2 (fun d ts => Time_MarshalJSON (Timestamp d) = inr ts)
          ds stamps ->
        let elems :=
          replicate (length rows) (record "" "" "0001-01-01T00:00:00Z")
          ++ zip_with (fun d ts => record (CurrentUser d) (SessionUser d) ts)
               ds stamps in
        exists w' : ResponseWriter,
          result x = Returned w'
          /\ W_Body w' = W_Body w ++ [Json (JArray elems)]
          /\ length elems = (2 * length rows)%nat)
    /\ (forall (good : list dbData) (stamps : list string) (d : dbData)
               (rest : list dbData) (err : error),
           ds = good ++ d :: rest ->
           Forall2 (fun d ts => Time_MarshalJSON (Timestamp d) = inr ts)
             good stamps ->
           Time_MarshalJSON (Timestamp d) = inl err ->
           let msg :=
             "json: error calling MarshalJSON for type time.Time: " +:+ err in
           result x
           = Returned (http_Error (W_Header_Set w "Content-Type"
                                     "application/json")
                         msg StatusInternalServerError)
           /\ W_Body (Outcome_writer (result x))
              = W_Body w ++ [Text (msg +:+ String.String "010"%char "")]
           /\ (W_Status w = None ->
               W_Status (Outcome_writer (result x))
               = Some StatusInternalServerError)).
Proof.
  intros rounds w r W s rs rows ds x record Hw Hin Hrows Herr Hds.
  subst x record. revert Hin.
  unfold TestSelectHandler, QueryAsUser, ConnectConfig, gssAuth,
    Provider_call, NewGSSFromCCache, result, trace.
  destruct rounds as [| n].
  all: answer_cases; cbn.
  all: try (intros []; fail).
  all: intros [Heq | []]; inversion Heq; subst; clear Heq.
  all: repeat match goal with
         | H : collectRows _ _ = _ |- _ => rewrite Hrows in H; inversion H; subst; clear H
         | H : Rows_Err _ = _ |- _ => rewrite Herr in H; try discriminate H; clear H
         | H : appendRows _ _ = _ |- _ =>
             rewrite (appendRows_app _ Hds) in H; inversion H; subst; clear H
         end.
  all: split;
    [ intros stamps Hst
    | intros good stamps d rest err Hsplit Hgood Hbad ].
  all: match goal with
       | H : dbDataList_json _ = _ |- _ =>
           rewrite dbDataList_json_app, dbDataList_json_zero in H;
           first [ rewrite (dbDataList_json_all Hst) in H
                 | rewrite Hsplit, (dbDataList_json_first_bad _ _ Hgood Hbad) in H ];
           inversion H; subst; clear H
       end.
  all: match goal with
       | H : Encode ?w0 (inr ?v) = _ |- _ =>
           let E := fresh "E" in
           destruct (@Encode_no_error w0 v Hw) as (w1 & E & Hbody);
           rewrite E in H; inversion H; subst; clear H
       | H : Encode ?w0 (inl ?e) = _ |- _ =>
           cbn in H; inversion H; subst; clear H
       end.
  all: first
    [ eexists; split; [reflexivity |]; split; [exact Hbody |];
      rewrite length_app, length_replicate, length_zip_with;
      pose proof (Forall2_length _ _ _ Hds);
      pose proof (Forall2_length _ _ _ Hst); lia
    | split; [reflexivity |]; split;
      [ cbn; unfold http_Error, Write, WriteHeader, W_Header_Set; cbn;
        destruct (W_Status w); cbn; rewrite Hw; reflexivity
      | intros Hfresh; cbn; apply http_Error_status; exact Hfresh ] ].
Qed.

End TestSelect.

(** ** The FreeIPA login *)

Section Login.
Context {L : Lib}.

(** [findCookie] returns the first cookie whose name starts with
    ["ipa_session"], and nothing exactly when there is none. *)
Lemma findCookie_first (cookies : list Cookie) :
  (exists pre c post,
      cookies = pre ++ c :: post
      /\ Forall noSessionPrefix pre
      /\ strings.HasPrefix (Cookie_Name c) "ipa_session" = true
      /\ findCookie cookies = Some c)
  \/ (Forall noSessionPrefix cookies /\ findCookie cookies = None).
Proof.
  induction cookies as [| c cookies IH]; simpl.
  - right. split; [constructor | reflexivity].
  - destruct (strings.HasPrefix (Cookie_Name c) "ipa_session") eqn:E.
    + left. exists [], c, cookies. repeat split; [constructor | exact E].
    + destruct IH as [(pre & c' & post & -> & Hpre & Hc' & Hfind) | [Hall Hnone]].
      * left. exists (c :: pre), c', post.
        repeat split; [constructor; assumption | exact Hc' | exact Hfind].
      * right. split; [constructor; assumption | exact Hnone].
Qed.

(** C6 (as amended).  [loginKerberos] hands its token to the HTTP client
    in one call ([http.Client.Do]), made exactly when the token has been
    serialized, and makes no second call, in any world; [IpaUserHandler]
    as a whole makes at most one call with a request that carries a
    token.  When that call is answered with a status other than 200,
    whether or not the status is another of the 2xx class, the result is
    the error ["login_kerberos HTTP <status>"]; when it is answered with
    status 200 the result is the HTTP client together with the first
    cookie whose name starts with ["ipa_session"], or the error
    ["no ipa_session cookie returned"] when no cookie has such a name; the
    latter error is returned if and only if no cookie has such a name. *)
Theorem loginKerberos_status_and_cookie :
  forall (ipaBaseURL krb5ConfPath ccachePath : string)
         (W : World) (s : State W),
    let x := run (loginKerberos ipaBaseURL krb5ConfPath ccachePath) s in
    (length (omap httpExchange (trace x)) <= 1)%nat
    /\ length (omap httpExchange (trace x))
       = length (omap marshalled (trace x))
    /\ (forall (w : ResponseWriter) (r : Request),
           (length (tokenRequests (trace (run (IpaUserHandler w r) s))) <= 1)%nat)
    /\ forall (req : HTTPRequest) (resp : HTTPResponse),
         In (req, inr resp) (omap httpExchange (trace x)) ->
         (Resp_StatusCode resp <> StatusOK ->
          result x
          = Returns
              (inl (Errorf_d "login_kerberos HTTP " (Resp_StatusCode resp))))
         /\ (Resp_StatusCode resp = StatusOK ->
             ((exists pre c post,
                  Resp_Cookies resp = pre ++ c :: post
                  /\ Forall noSessionPrefix pre
                  /\ strings.HasPrefix (Cookie_Name c) "ipa_session" = true
                  /\ result x
                     = Returns (inr ({| HTTPClient_Timeout := 10 |}, c)))
              \/ (Forall noSessionPrefix (Resp_Cookies resp)
                  /\ result x
                     = Returns (inl "no ipa_session cookie returned")))
             /\ (result x = Returns (inl "no ipa_session cookie returned")
                 <-> Forall noSessionPrefix (Resp_Cookies resp))).
Proof.
  intros ipaBaseURL krb5ConfPath ccachePath W s x. subst x.
  unfold loginKerberos, result, trace.
  split; [| split; [| split]].
  - destruct (url_Parse ipaBaseURL) as [err | u]; answer_cases; cbn; lia.
  - destruct (url_Parse ipaBaseURL) as [err | u]; answer_cases; cbn;
      reflexivity.
  - intros w r. unfold IpaUserHandler, UserShow, loginKerberos, tokenRequests.
    answer_cases; cbn; lia.
  - destruct (url_Parse ipaBaseURL) as [err | u]; [intros req resp [] |].
    intros req resp.
    answer_cases; cbn.
    all: try (intros []; fail).
    all: intros [Heq | []]; inversion Heq; subst; clear Heq.
    all: match goal with
         | H : negb (Resp_StatusCode _ =? StatusOK) = _ |- _ =>
             first [ apply negb_true_iff in H; apply Z.eqb_neq in H
                   | apply negb_false_iff in H; apply Z.eqb_eq in H ]
         end.
    all: split; [intros Hst; first [reflexivity | contradiction] |].
    all: intros Hst; try contradiction.
    all: destruct (findCookie_first (Resp_Cookies resp))
           as [(pre & c' & post & Hsplit & Hpre & Hc' & Hfind) | [Hall Hnone]].
    all: try congruence.
    + match goal with
      | H : findCookie _ = Some ?c |- _ =>
          assert (c = c') by congruence; subst c
      end.
      split.
      * left. exists pre, c', post.
        repeat split; first [assumption | reflexivity].
      * split; [discriminate |].
        intros Hall. rewrite Hsplit in Hall.
        apply Forall_app in Hall. destruct Hall as [_ Hall].
        inversion Hall as [| ? ? Hno _]; subst.
        unfold noSessionPrefix in Hno. congruence.
    + split.
      * right. split; [assumption | reflexivity].
      * split; [intros _; assumption | reflexivity].
Qed.

End Login.

(** ** Protection flags *)

Section Flags.
Context {L : Lib}.


End Flags.

(** ** The target SPN *)

Section SPN.
Context {L : Lib}.

(** On the database wire path the ticket is requested for the service
    name, a slash, and the host name lower-cased and without one final
    dot; on the HTTP Negotiate path for ["HTTP/"] and the lower-cased host
    name of the base URL, with nothing removed.  In any world. *)
Lemma spn_by_path (W : World) (s : State W) :
  (forall (g : gssFromCCache) (host service : string),
      Forall (eq (service +:+ "/" +:+
                  strings.TrimSuffix (strings.ToLower unicodeToLower host) "."))
        (omap ticketSPN (trace (run (GetInitToken g host service) s))))
  /\ (forall (ipaBaseURL krb5ConfPath ccachePath : string) (u : URL),
         url_Parse ipaBaseURL = inr u ->
         Forall (eq ("HTTP/" +:+ strings.ToLower unicodeToLower (URL_Hostname u)))
           (omap ticketSPN
              (trace (run (loginKerberos ipaBaseURL krb5ConfPath ccachePath) s)))).
Proof.
  split.
  - intros g host service. unfold trace, canonicalizeHost.
    answer_cases; cbn; repeat constructor.
  - intros ipaBaseURL krb5ConfPath ccachePath u Hu.
    unfold loginKerberos, trace. rewrite Hu.
    answer_cases; cbn; repeat constructor.
Qed.

End SPN.

(** ** The registration point under concurrent requests *)

Section Registration.
Context {L : Lib}.

(** C1 (fails on the code).  [QueryAsUser] registers its provider and
    connects without any lock, and never unregisters.  For two requests
    served concurrently there is a schedule (request 0 registers, request
    1 registers, request 0 goes on to connect) in which the client
    library, at the connection of request 0, finds the provider that
    request 1 registered: whenever the connection string of request 0
    parses and its transport connection is opened, the provider observed
    for request 0 carries the credential cache of request 1.  The same
    holds when request 1 registers through [PoolForUser]. *)
Theorem QueryAsUser_observes_other_request :
  forall (W : World) (s : State W) (rounds : nat)
         (dsn0 ccache0 conf0 sql0 : string) (args0 : list any)
         (dsn1 ccache1 conf1 sql1 : string) (args1 : list any)
         (cfg : ConnConfig) (pgHost : string) (c : Conn)
         (e1 e2 e3 : Env W),
    answer W (pgx_ParseConfig dsn0) (env s) = (inr cfg, e1) ->
    answer W (os_Getenv "PG_HOST") e1 = (pgHost, e2) ->
    answer W (pgconn_dial
                {| Cfg_Host := Cfg_Host cfg;
                   Cfg_KerberosSrvName := Cfg_KerberosSrvName cfg;
                   Cfg_KerberosSpn := Cfg_KerberosSpn cfg;
                   Cfg_ConnectTimeout := 5;
                   Cfg_TLSConfig :=
                     Some {| TLS_MinVersion := VersionTLS12;
                             TLS_ServerName := pgHost |} |}) e2
      = (inr c, e3) ->
    observations
      (snd (runSchedule [0; 1; 0; 0; 0; 0]%nat
              [QueryAsUser rounds dsn0 ccache0 conf0 sql0 args0;
               QueryAsUser rounds dsn1 ccache1 conf1 sql1 args1] s))
    = [(0%nat, Some {| Provider_ccachePath := ccache1;
                       Provider_krb5Conf := conf1;
                       Provider_opts := QueryAsUser_opts |})]
    /\ observations
         (snd (runSchedule [0; 1; 0; 0; 0; 0]%nat
                 [bind (QueryAsUser rounds dsn0 ccache0 conf0 sql0 args0)
                       (fun _ => Ret tt);
                  bind (PoolForUser dsn1 ccache1 conf1) (fun _ => Ret tt)] s))
       = [(0%nat, Some {| Provider_ccachePath := ccache1;
                          Provider_krb5Conf := conf1;
                          Provider_opts := [] |})].
Proof.
  intros W s rounds dsn0 ccache0 conf0 sql0 args0 dsn1 ccache1 conf1 sql1
    args1 cfg pgHost c e1 e2 e3 Hparse Hhost Hdial.
  unfold QueryAsUser, PoolForUser, ConnectConfig, gssAuth.
  split.
  all: repeat (progress
            (cbn [runSchedule stepThread bind call lookup list_lookup
                  insert list_insert env newGSS];
             unfold perform;
             try rewrite Hparse; try rewrite Hhost; try rewrite Hdial)).
  all: reflexivity.
Qed.

(** Without concurrency the race does not show: a request run alone finds
    its own provider at the registration point, in any world. *)
Lemma QueryAsUser_alone_observes_itself (W : World) (s : State W)
    (rounds : nat) (dsn ccache conf sql : string) (args : list any) :
  Forall (eq (Some {| Provider_ccachePath := ccache;
                      Provider_krb5Conf := conf;
                      Provider_opts := QueryAsUser_opts |}))
    (omap providerObserved
       (trace (run (QueryAsUser rounds dsn ccache conf sql args) s))).
Proof.
  unfold QueryAsUser, ConnectConfig, gssAuth, Provider_call, NewGSSFromCCache,
    trace.
  destruct rounds as [| n].
  all: repeat (run_norm; unfold perform; cbn [env newGSS];
               match goal with
               | |- context [answer ?W0 ?c ?e] =>
                   let t := fresh "t" in
                   let e' := fresh "e" in
                   destruct (answer W0 c e) as [t e'] eqn:?
               | |- context [match ?x with _ => _ end] => is_var x; destruct x
               | |- context [match ?x with _ => _ end] =>
                   lazymatch x with
                   | context [run _ _] => fail
                   | context [answer _ _ _] => fail
                   | context [match _ with _ => _ end] => fail
                   | _ => destruct x eqn:?
                   end
               end).
  all: run_norm; cbn; repeat constructor.
Qed.

End Registration.

(** ** Ticket acquisition *)

Section Tickets.
Context {L : Lib}.

(** Two runs of the same program, one after the other. *)
Lemma run_twice (W : World) (A : Type) (p : Prog A) (s : State W) :
  run (do r1 <- p; do r2 <- p; Ret (r1, r2)) s
  = ((result (run p s), result (run p (final (run p s)))),
     final (run p (final (run p s))),
     trace (run p s) ++ trace (run p (final (run p s)))).
Proof.
  rewrite run_bind. unfold result, final, trace.
  destruct (run p s) as [[r1 s1] tr1]. simpl.
  rewrite run_bind.
  destruct (run p s1) as [[r2 s2] tr2]. simpl.
  rewrite app_nil_r. reflexivity.
Qed.

Lemma loginKerberos_asks_library (W : World) (s : State W)
    (ipaBaseURL krb5ConfPath ccachePath : string) :
  let x := run (loginKerberos ipaBaseURL krb5ConfPath ccachePath) s in
  omap ticketUsed (trace x) = omap ticketIssued (trace x)
  /\ (forall v, result x = Returns (inr v) ->
      length (omap ticketIssued (trace x)) = 1%nat
      /\ omap ccacheLoaded (trace x) = [ccachePath]
      /\ length (omap clientBuilt (trace x)) = 1%nat).
Proof.
  unfold loginKerberos, result, trace.
  answer_cases; cbn; split; try reflexivity; intros v Hv;
    first [discriminate Hv | repeat split; reflexivity].
Qed.

Lemma ConnectConfig_asks_library (W : World) (s : State W)
    (rounds : nat) (cfg : ConnConfig) :
  let x := run (ConnectConfig Provider_call rounds cfg) s in
  omap ticketUsed (trace x) = omap ticketIssued (trace x)
  /\ (forall v, result x = Returns (inr v) ->
      length (omap ticketIssued (trace x)) = 1%nat
      /\ length (omap ccacheLoaded (trace x)) = 1%nat
      /\ length (omap clientBuilt (trace x)) = 1%nat).
Proof.
  unfold ConnectConfig, gssAuth, Provider_call, NewGSSFromCCache, result, trace.
  destruct rounds as [| n].
  all: answer_cases; cbn; split; try reflexivity; intros v Hv;
    first [discriminate Hv | repeat split; reflexivity].
Qed.

(** C3 (as amended).  The repository keeps no ticket between
    acquisitions.  In any world, when one function is run twice in
    sequence, on the HTTP Negotiate path ([loginKerberos]) as on the
    database wire path (the connection procedure calling the registered
    provider), every token is built from the ticket that the Kerberos
    library issued for the ticket request of the same run; and when both
    runs succeed, the credential cache was loaded twice, two clients were
    built and two ticket requests were answered, one of each per run. *)
Theorem acquisition_asks_library_each_time :
  forall (W : World) (s : State W),
    (forall ipaBaseURL krb5ConfPath ccachePath : string,
        let p := loginKerberos ipaBaseURL krb5ConfPath ccachePath in
        let x := run (do r1 <- p; do r2 <- p; Ret (r1, r2)) s in
        omap ticketUsed (trace x) = omap ticketIssued (trace x)
        /\ (forall v1 v2, result x = (Returns (inr v1), Returns (inr v2)) ->
            length (omap ticketIssued (trace x)) = 2%nat
            /\ omap ccacheLoaded (trace x) = [ccachePath; ccachePath]
            /\ length (omap clientBuilt (trace x)) = 2%nat))
    /\ (forall (rounds : nat) (cfg : ConnConfig),
           let q := ConnectConfig Provider_call rounds cfg in
           let y := run (do r1 <- q; do r2 <- q; Ret (r1, r2)) s in
           omap ticketUsed (trace y) = omap ticketIssued (trace y)
           /\ (forall v1 v2,
                  result y = (Returns (inr v1), Returns (inr v2)) ->
                  length (omap ticketIssued (trace y)) = 2%nat
                  /\ length (omap ccacheLoaded (trace y)) = 2%nat
                  /\ length (omap clientBuilt (trace y)) = 2%nat)).
Proof.
  intros W s. split.
  - intros ipaBaseURL krb5ConfPath ccachePath p x. subst x.
    rewrite run_twice.
    destruct (loginKerberos_asks_library s ipaBaseURL krb5ConfPath ccachePath)
      as [Hu1 Hok1].
    destruct (loginKerberos_asks_library (final (run p s))
                ipaBaseURL krb5ConfPath ccachePath) as [Hu2 Hok2].
    fold p in Hu1, Hok1, Hu2, Hok2.
    unfold result, trace, final in *. cbn [fst snd] in *.
    rewrite !omap_app, Hu1, Hu2. split; [reflexivity |].
    intros v1 v2 Hv. inversion Hv as [[Hv1 Hv2]].
    destruct (Hok1 _ Hv1) as (Hl1 & Hc1 & Hb1).
    destruct (Hok2 _ Hv2) as (Hl2 & Hc2 & Hb2).
    rewrite !length_app, Hl1, Hl2, Hc1, Hc2, Hb1, Hb2.
    repeat split; reflexivity.
  - intros rounds cfg q y. subst y.
    rewrite run_twice.
    destruct (ConnectConfig_asks_library s rounds cfg) as [Hu1 Hok1].
    destruct (ConnectConfig_asks_library (final (run q s)) rounds cfg)
      as [Hu2 Hok2].
    fold q in Hu1, Hok1, Hu2, Hok2.
    unfold result, trace, final in *. cbn [fst snd] in *.
    rewrite !omap_app, Hu1, Hu2. split; [reflexivity |].
    intros v1 v2 Hv. inversion Hv as [[Hv1 Hv2]].
    destruct (Hok1 _ Hv1) as (Hl1 & Hc1 & Hb1).
    destruct (Hok2 _ Hv2) as (Hl2 & Hc2 & Hb2).
    rewrite !length_app, Hl1, Hl2, Hc1, Hc2, Hb1, Hb2.
    repeat split; reflexivity.
Qed.

End Tickets.

(** ** Runs in the concrete world *)

Section Concrete.
Import Demo.

(** C1 at a concrete input: alice's request registers, bob's request
    registers, alice's request connects; the client library loads bob's
    credential cache for alice's connection. *)
Lemma QueryAsUser_observes_other_request_witness :
  answer world (pgx_ParseConfig "host=db.example.com user=alice dbname=app")
    (env start)
  = (inr {| Cfg_Host := "DB.example.com.";
            Cfg_KerberosSrvName := "postgres";
            Cfg_KerberosSpn := "";
            Cfg_ConnectTimeout := 0;
            Cfg_TLSConfig := None |}, 0)
  /\ observations
       (snd (runSchedule [0; 1; 0; 0; 0; 0]%nat [query_alice; query_bob] start))
     = [(0%nat, Some {| Provider_ccachePath := "/tmp/krb5cc_bob";
                        Provider_krb5Conf := "/etc/krb5.conf";
                        Provider_opts := QueryAsUser_opts |})]
  /\ ccachesLoaded
       (snd (runSchedule [0; 1; 0; 0; 0; 0; 0]%nat [query_alice; query_bob] start))
     = [(0%nat, "/tmp/krb5cc_bob")].
Proof.
  split; [reflexivity |]. split; [| reflexivity].
  apply (@QueryAsUser_observes_other_request lib world start 1
           "host=db.example.com user=alice dbname=app" "/tmp/krb5cc_alice"
           "/etc/krb5.conf" "select current_user" []
           "host=db.example.com user=bob dbname=app" "/tmp/krb5cc_bob"
           "/etc/krb5.conf" "select current_user" []
           {| Cfg_Host := "DB.example.com.";
              Cfg_KerberosSrvName := "postgres";
              Cfg_KerberosSpn := "";
              Cfg_ConnectTimeout := 0;
              Cfg_TLSConfig := None |}
           "db.example.com" "conn" 0 0 0); reflexivity.
Defined.

(** C3, counterexample.  Two logins in sequence for the same credential
    cache and the same SPN: the first ticket ends at 10, the second login
    starts at 1, inside that window, and its ticket ends at 11. *)
Lemma second_ticket_has_new_validity_end :
  let first := run login_plain start in
  let second := run login_plain (final first) in
  omap ticketSPN (trace first) = ["HTTP/ipa.example.com"]
  /\ omap ticketSPN (trace second) = ["HTTP/ipa.example.com"]
  /\ omap ccacheLoaded (trace first) = omap ccacheLoaded (trace second)
  /\ map Ticket_EndTime (omap ticketIssued (trace first)) = [10]
  /\ env (final first) = 1
  /\ map Ticket_EndTime (omap ticketIssued (trace second)) = [11]
  /\ map Ticket_EndTime (omap ticketIssued (trace first))
     <> map Ticket_EndTime (omap ticketIssued (trace second)).
Proof. repeat split. discriminate. Qed.

(** C4 at the failing input.  For the host name [IPA.Example.COM.] the
    database wire path asks for a ticket for the name without the final
    dot, and the HTTP Negotiate path for the name with it. *)
Lemma loginKerberos_keeps_final_dot :
  omap ticketSPN
    (trace (run (GetInitToken {| cl := "/tmp/krb5cc_1000" |}
                   "IPA.Example.COM." "HTTP") start))
  = ["HTTP/ipa.example.com"]
  /\ omap ticketSPN (trace (run login_dotted start))
     = ["HTTP/ipa.example.com."].
Proof. split; reflexivity. Qed.

(** C7 at a concrete input: a request without the header. *)
Lemma missing_credential_header_unauthorized_witness :
  Header_Get (Request_Header request_bare) "X_krb5ccname" = ""
  /\ W_Status writer = None
  /\ result (run (IpaUserHandler writer request_bare) start)
     = Returned (http_Error writer "unauthorized " StatusUnauthorized)
  /\ trace (run (IpaUserHandler writer request_bare) start)
     = [Ev (log_Println "no delegated credentials") tt]
  /\ TestSelectHandler 1 writer request_bare
     = Ret (Returned (http_Error writer "no delegated credentials"
                        StatusUnauthorized)).
Proof.
  assert (Hget : Header_Get (Request_Header request_bare) "X_krb5ccname" = "")
    by reflexivity.
  assert (Hfresh : W_Status writer = None) by reflexivity.
  destruct (@missing_credential_header_unauthorized lib 1 writer request_bare
              world start Hget Hfresh)
    as [(Hres & _ & Htr & _) (Hsel & _ & _)].
  repeat split; assumption.
Defined.

(** C8 at a concrete input: a header value without a colon. *)
Lemma ccache_field_needs_colon_witness :
  Header_Get (Request_Header request_nocolon) "X_krb5ccname" <> ""
  /\ strings.ContainsByte
       (Header_Get (Request_Header request_nocolon) "X_krb5ccname") ":"
     = false
  /\ IpaUserHandler writer request_nocolon
     = Ret (Panicked writer (IndexOutOfRange 1 1))
  /\ TestSelectHandler 1 writer request_nocolon
     = Ret (Panicked writer (IndexOutOfRange 1 1)).
Proof.
  assert (Hne : Header_Get (Request_Header request_nocolon) "X_krb5ccname"
                <> "") by (vm_compute; discriminate).
  assert (Hc : strings.ContainsByte
                 (Header_Get (Request_Header request_nocolon) "X_krb5ccname")
                 ":" = false) by reflexivity.
  destruct (@ccache_field_needs_colon lib 1 writer request_nocolon Hne)
    as [_ Hno].
  destruct (Hno Hc) as (_ & Hipa & Hsel).
  repeat split; assumption.
Defined.

(** C9 at a concrete input: a usable header and no identity. *)
Lemma TestSelectHandler_nil_identity_witness :
  Header_Get (Request_Header request_anonymous) "X_krb5ccname" <> ""
  /\ ccacheOf (Header_Get (Request_Header request_anonymous) "X_krb5ccname")
     = inr "/tmp/krb5cc_1000"
  /\ TestSelectHandler 1 writer request_anonymous
     = Ret (Panicked (http_Error writer "id is required" StatusUnauthorized)
              NilDereference).
Proof.
  assert (Hne : Header_Get (Request_Header request_anonymous) "X_krb5ccname"
                <> "") by (vm_compute; discriminate).
  assert (Hcc : ccacheOf (Header_Get (Request_Header request_anonymous)
                            "X_krb5ccname") = inr "/tmp/krb5cc_1000")
    by reflexivity.
  destruct (@TestSelectHandler_nil_identity lib 1 writer request_anonymous
              "/tmp/krb5cc_1000" Hne Hcc) as [Hnil _].
  destruct (Hnil eq_refl) as [Hpanic _].
  repeat split; assumption.
Defined.

(** C10 at a concrete input: the query answers one row, the response
    holds two records, the first with empty strings and the zero time. *)
Lemma TestSelectHandler_encodes_zero_records_witness :
  W_writeErr writer = None
  /\ In (inr rows)
       (omap queryAnswer
          (trace (run (TestSelectHandler 1 writer request_jdoe) start)))
  /\ exists w' : ResponseWriter,
       result (run (TestSelectHandler 1 writer request_jdoe) start)
       = Returned w'
       /\ W_Body w'
          = [Json (JArray
                     [JObject [("current_user", JString "");
                               ("session_user", JString "");
                               ("timestamp", JString "0001-01-01T00:00:00Z")];
                      JObject [("current_user", JString "jdoe");
                               ("session_user", JString "jdoe");
                               ("timestamp",
                                JString "0001-01-01T00:00:42Z")]])].
Proof.
  assert (Hw : W_writeErr writer = None) by reflexivity.
  assert (Hin : In (inr rows)
                  (omap queryAnswer
                     (trace (run (TestSelectHandler 1 writer request_jdoe)
                               start))))
    by (vm_compute; left; reflexivity).
  assert (Hrows : collectRows (Rows_values rows) []
                  = inr [[any_string "jdoe"; any_string "jdoe"; any_Time 42]])
    by reflexivity.
  assert (Herr : Rows_Err rows = None) by reflexivity.
  assert (Hds : Forall2 (fun row d => rowData row = inr d)
                  [[any_string "jdoe"; any_string "jdoe"; any_Time 42]]
                  [{| CurrentUser := "jdoe"; SessionUser := "jdoe";
                      Timestamp := 42 |}])
    by (repeat constructor).
  assert (Hst : Forall2
                  (fun d ts => Time_MarshalJSON (Timestamp d) = inr ts)
                  [{| CurrentUser := "jdoe"; SessionUser := "jdoe";
                      Timestamp := 42 |}]
                  ["0001-01-01T00:00:42Z"])
    by (repeat constructor).
  destruct (@TestSelectHandler_encodes_zero_records lib 1 writer request_jdoe
              world start rows _ _ Hw Hin Hrows Herr Hds)
    as [Hall _].
  destruct (Hall _ Hst) as (w' & Hres & Hbody & _).
  split; [exact Hw |]. split; [exact Hin |].
  exists w'. split; [exact Hres | exact Hbody].
Defined.


End Concrete.

(** ** The login in the world with a script *)

Section ConcreteLogin.
Import Demo.
Import Scenario.

(** C6 at a concrete input: the directory answers the login with 200, a
    cookie of another name and the session cookie; the login returns the
    session cookie. *)
Lemma loginKerberos_status_and_cookie_witness :
  let x := run (loginKerberos "https://ipa.example.com" "/etc/krb5.conf"
                  "/tmp/krb5cc_1000") (start happy) in
  omap httpExchange (trace x) = [(loginRequest_sent, inr (loginResponse 200))]
  /\ ~ Forall noSessionPrefix (Resp_Cookies (loginResponse 200))
  /\ result x <> Returns (inl "no ipa_session cookie returned")
  /\ result x = Returns (inr ({| HTTPClient_Timeout := 10 |}, session)).
Proof.
  intros x.
  assert (Hex : omap httpExchange (trace x)
                = [(loginRequest_sent, inr (loginResponse 200))])
    by reflexivity.
  assert (Hin : In (loginRequest_sent, inr (loginResponse 200))
                  (omap httpExchange (trace x)))
    by (rewrite Hex; left; reflexivity).
  destruct (@loginKerberos_status_and_cookie Scenario.lib
              "https://ipa.example.com" "/etc/krb5.conf" "/tmp/krb5cc_1000"
              (world happy) (start happy)) as (_ & _ & _ & Hstatus).
  destruct (Hstatus _ _ Hin) as [_ Hok].
  destruct (Hok eq_refl) as [_ Hiff].
  assert (Hres : result x = Returns (inr ({| HTTPClient_Timeout := 10 |},
                                          session)))
    by reflexivity.
  assert (Hno : result x <> Returns (inl "no ipa_session cookie returned"))
    by (rewrite Hres; discriminate).
  refine (conj Hex (conj _ (conj Hno Hres))).
  intros Hall. apply Hno. apply Hiff. exact Hall.
Defined.

(** C6, counterexample to the claim as it was worded.  The directory
    answers the login with 204, a status of the success class, and with
    the session cookie; the login does not return the cookie, and fails
    with neither of the two errors of status 200 but with the error of a
    rejected login. *)
Lemma loginKerberos_rejects_other_success_status :
  let x := run (loginKerberos "https://ipa.example.com" "/etc/krb5.conf"
                  "/tmp/krb5cc_1000") (start loginNoContent) in
  omap httpExchange (trace x) = [(loginRequest_sent, inr (loginResponse 204))]
  /\ 200 <= Resp_StatusCode (loginResponse 204) < 300
  /\ findCookie (Resp_Cookies (loginResponse 204)) = Some session
  /\ result x = Returns (inl "login_kerberos HTTP 204")
  /\ result x <> Returns (inr ({| HTTPClient_Timeout := 10 |}, session)).
Proof.
  intros x. split; [reflexivity |]. split; [cbn; lia |].
  split; [reflexivity |]. split; [reflexivity |].
  assert (Hres : result x = Returns (inl "login_kerberos HTTP 204"))
    by reflexivity.
  rewrite Hres. discriminate.
Qed.

End ConcreteLogin.

(** * Further properties *)

(** ** The directory handler *)

Section DirectoryHandler.
Context {L : Lib}.

Lemma Write_status (w : ResponseWriter) (chunk : BodyChunk) :
  W_Status w = None -> W_Status (fst (Write w chunk)) = Some StatusOK.
Proof.
  intros H. unfold Write, WriteHeader. rewrite H. simpl.
  destruct (W_writeErr w); reflexivity.
Qed.

Lemma W_Header_Set_status (w : ResponseWriter) (key value : string) :
  W_Status (W_Header_Set w key value) = W_Status w.
Proof. reflexivity. Qed.

Lemma WriteHeader_written (w : ResponseWriter) (code code' : Z) :
  W_Status w = Some code -> W_Status (WriteHeader w code') = Some code.
Proof. intros H. unfold WriteHeader. rewrite H. exact H. Qed.

Lemma http_Error_written (w : ResponseWriter) (msg : string) (code code' : Z) :
  W_Status w = Some code -> W_Status (http_Error w msg code') = Some code.
Proof.
  intros H. unfold http_Error, Write, WriteHeader, W_Header_Set. cbn.
  rewrite H. cbn. destruct (W_writeErr w); cbn; first [exact H | reflexivity].
Qed.

(** X1.  With a usable credential-cache header and a fresh writer,
    [IpaUserHandler] ends in one of two ways, in any world.  Either the
    parser of the credential cache panics: that call, for the cache named
    by the header, is then the last one made, and the panic leaves the
    handler with nothing written.  Or no such panic occurs and the handler
    returns with status 400, 502 or 200: 400 exactly when the [uid]
    parameter is missing or empty, and then without having made any call.
    Status 500 is never sent: when encoding fails the header has already
    gone out with 200. *)
Theorem IpaUserHandler_statuses :
  forall (w : ResponseWriter) (r : Request) (ccache : string),
    Header_Get (Request_Header r) "X_krb5ccname" <> "" ->
    ccacheOf (Header_Get (Request_Header r) "X_krb5ccname") = inr ccache ->
    W_Status w = None ->
    (Values_Get (Request_Query r) "uid" = "" ->
     IpaUserHandler w r
     = Ret (Returned (http_Error w "uid is required" StatusBadRequest)))
    /\ forall (W : World) (s : State W),
         let x := run (IpaUserHandler w r) s in
         (exists i n : nat,
             result x = Panicked w (IndexOutOfRange i n)
             /\ omap loadPanic (trace x) = [(ccache, IndexOutOfRange i n)]
             /\ last (trace x)
                = Some (Ev (credentials_LoadCCache ccache) (Load_panics i n)))
         \/ (exists w' : ResponseWriter,
                result x = Returned w'
                /\ omap loadPanic (trace x) = []
                /\ (W_Status w' = Some StatusBadRequest
                    \/ W_Status w' = Some StatusBadGateway
                    \/ W_Status w' = Some StatusOK)
                /\ (W_Status w' = Some StatusBadRequest
                    <-> Values_Get (Request_Query r) "uid" = "")).
Proof.
  intros w r ccache Hne Hcc Hfresh.
  assert (Heqb : String.eqb (Header_Get (Request_Header r) "X_krb5ccname") ""
                 = false) by (apply String.eqb_neq; exact Hne).
  split.
  - intros Huid. unfold IpaUserHandler. rewrite Heqb, Hcc, Huid. reflexivity.
  - intros W s x. subst x.
    unfold IpaUserHandler, UserShow, loginKerberos, result, trace.
    rewrite Heqb, Hcc.
    destruct (String.eqb_spec (Values_Get (Request_Query r) "uid") "")
      as [Huid | Huid].
    + cbn. right. eexists; split; [reflexivity |]. split; [reflexivity |].
      rewrite http_Error_status by assumption.
      split; [left; reflexivity | split; [intros _; exact Huid | reflexivity]].
    + answer_cases; cbn.
      all: try (left; eexists _, _; repeat split; reflexivity).
      all: right; eexists; split; [reflexivity |]; split; [reflexivity |].
      all: try (rewrite http_Error_status by assumption;
                split; [right; left; reflexivity |];
                split; [intros Hs; inversion Hs | intros Hu; contradiction]).
      all: match goal with
           | H : Encode ?w0 ?v = (?w2, _) |- _ =>
               assert (Hst : W_Status w2 = Some StatusOK)
                 by (replace w2 with (fst (Encode w0 v)) by (rewrite H; reflexivity);
                     apply Write_status; rewrite W_Header_Set_status; exact Hfresh)
           end.
      all: erewrite WriteHeader_written
             by first [exact Hst | eapply http_Error_written; exact Hst].
      all: split; [right; right; reflexivity |];
        split; [intros Hs; inversion Hs | intros Hu; contradiction].
Qed.

End DirectoryHandler.

Section DirectoryCall.
Context {L : Lib}.

(** X2.  Whatever the world, the HTTP exchanges of [UserShow] are none, the
    login alone, or the login followed by one JSON-RPC call.  The call is
    sent only after a login answered 200 with a session cookie; it is a
    POST to the base URL without trailing slashes followed by
    [/ipa/session/json], carries exactly that cookie, the [Referer] the
    directory insists on and the [user_show] payload for the uid, and no
    [Authorization] header. *)
Theorem UserShow_exchanges :
  forall (ipaBaseURL krb5ConfPath ccachePath uid : string)
         (W : World) (s : State W),
    let hx := omap httpExchange
                (trace (run (UserShow ipaBaseURL krb5ConfPath ccachePath uid) s)) in
    hx = []
    \/ (exists login answer,
           hx = [(login, answer)] /\ Req_Method login = "GET")
    \/ (exists login resp cookie answer,
           hx = [(login, inr resp);
                 ({| Req_Method := "POST";
                     Req_URL := strings.TrimRight ipaBaseURL "/"
                                +:+ "/ipa/session/json";
                     Req_Header :=
                       [("Content-Type", "application/json");
                        ("Accept", "application/json");
                        ("Referer", strings.TrimRight ipaBaseURL "/" +:+ "/ipa")];
                     Req_Cookies := [cookie];
                     Req_Body := Some (userShowPayload uid) |}, answer)]
           /\ Req_Method login = "GET"
           /\ Resp_StatusCode resp = StatusOK
           /\ findCookie (Resp_Cookies resp) = Some cookie).
Proof.
  intros ipaBaseURL krb5ConfPath ccachePath uid W s hx. subst hx.
  unfold UserShow, loginKerberos, trace.
  answer_cases; cbn.
  all: try (left; reflexivity).
  all: try (right; left; eexists _, _; split; reflexivity).
  all: right; right; eexists _, _, _, _.
  all: split; [reflexivity |]; split; [reflexivity |].
  all: repeat match goal with
         | H : negb (Resp_StatusCode ?h =? StatusOK) = false |- _ =>
             apply negb_false_iff, Z.eqb_eq in H
         end.
  all: split; assumption.
Qed.

(** X3.  How [UserShow] reads the answer of the JSON-RPC call, in any
    world: a status other than 200 gives the error
    ["json rpc HTTP <status>: <body>"]; a body that does not decode gives
    ["decode: ..."]; an error envelope gives
    ["ipa error <code>: <message>"]; otherwise the result is the decoded
    [result.result] mapping, unchanged. *)
Theorem UserShow_answer :
  forall (ipaBaseURL krb5ConfPath ccachePath uid : string)
         (W : World) (s : State W) (req : HTTPRequest) (resp : HTTPResponse),
    let x := run (UserShow ipaBaseURL krb5ConfPath ccachePath uid) s in
    In (req, inr resp) (omap httpExchange (trace x)) ->
    Req_Method req = "POST" ->
    (Resp_StatusCode resp <> StatusOK ->
     result x
     = Returns (inl (Errorf_d "json rpc HTTP " (Resp_StatusCode resp)
                     +:+ ": " +:+ Resp_Body resp)))
    /\ (Resp_StatusCode resp = StatusOK ->
        (forall err, json_Decode_ipaResp (Resp_Body resp) = inl err ->
                     result x = Returns (inl (Errorf_w "decode: " err)))
        /\ (forall out e,
               json_Decode_ipaResp (Resp_Body resp) = inr out ->
               ipaResp_Error out = Some e ->
               result x
               = Returns (inl (Errorf_d "ipa error " (ipaError_Code e)
                               +:+ ": " +:+ ipaError_Message e)))
        /\ (forall out,
               json_Decode_ipaResp (Resp_Body resp) = inr out ->
               ipaResp_Error out = None ->
               result x = Returns (inr (ipaResp_Result out)))).
Proof.
  intros ipaBaseURL krb5ConfPath ccachePath uid W s req resp x. subst x.
  unfold UserShow, loginKerberos, result, trace.
  answer_cases; cbn.
  all: try (intros []; fail).
  all: intros Hin Hm.
  all: repeat match goal with
         | H : _ \/ _ |- _ => destruct H as [H | H]
         | H : False |- _ => destruct H
         | H : (_, _) = (_, _) |- _ => inversion H; subst; clear H
         end.
  all: try discriminate Hm.
  all: match goal with
       | H : negb (Resp_StatusCode ?h =? StatusOK) = _
         |- (Resp_StatusCode ?h <> _ -> _) /\ _ =>
           first [ apply negb_true_iff in H; apply Z.eqb_neq in H
                 | apply negb_false_iff in H; apply Z.eqb_eq in H ]
       end.
  all: split; [intros Hst; first [reflexivity | contradiction] |].
  all: intros Hst; try contradiction.
  all: repeat split; intros; congruence.
Qed.

End DirectoryCall.

Section DirectoryResponses.
Context {L : Lib}.

Ltac exchange_cases :=
  repeat match goal with
    | H : _ \/ _ |- _ => destruct H as [H | H]
    | H : False |- _ => destruct H
    | H : (_, _) = (_, _) |- _ => inversion H; subst; clear H
    end.

Ltac status_cases :=
  repeat match goal with
    | H : negb (Resp_StatusCode ?h =? StatusOK) = true |- _ =>
        apply negb_true_iff, Z.eqb_neq in H
    | H : negb (Resp_StatusCode ?h =? StatusOK) = false |- _ =>
        apply negb_false_iff, Z.eqb_eq in H
    end.

(** X4.  Failures of the directory reach the client of [IpaUserHandler] as
    status 502 with the failure's message, in any world: a login answered
    with a status other than 200 (no JSON-RPC call is sent then), a
    JSON-RPC call answered with a status other than 200, and a JSON-RPC
    answer that holds an error envelope. *)
Theorem IpaUserHandler_directory_failures :
  forall (w : ResponseWriter) (r : Request) (W : World) (s : State W)
         (req : HTTPRequest) (resp : HTTPResponse),
    let x := run (IpaUserHandler w r) s in
    W_Status w = None ->
    In (req, inr resp) (omap httpExchange (trace x)) ->
    (Req_Method req = "GET" -> Resp_StatusCode resp <> StatusOK ->
     result x
     = Returned (http_Error w
                   ("ipa: " +:+ Errorf_d "login_kerberos HTTP "
                                  (Resp_StatusCode resp))
                   StatusBadGateway)
     /\ W_Status (Outcome_writer (result x)) = Some StatusBadGateway
     /\ length (omap httpExchange (trace x)) = 1%nat)
    /\ (Req_Method req = "POST" -> Resp_StatusCode resp <> StatusOK ->
        result x
        = Returned (http_Error w
                      ("ipa: " +:+ Errorf_d "json rpc HTTP "
                                     (Resp_StatusCode resp)
                       +:+ ": " +:+ Resp_Body resp)
                      StatusBadGateway)
        /\ W_Status (Outcome_writer (result x)) = Some StatusBadGateway)
    /\ (forall out e,
           Req_Method req = "POST" -> Resp_StatusCode resp = StatusOK ->
           json_Decode_ipaResp (Resp_Body resp) = inr out ->
           ipaResp_Error out = Some e ->
           result x
           = Returned (http_Error w
                         ("ipa: " +:+ Errorf_d "ipa error " (ipaError_Code e)
                          +:+ ": " +:+ ipaError_Message e)
                         StatusBadGateway)
           /\ W_Status (Outcome_writer (result x)) = Some StatusBadGateway).
Proof.
  intros w r W s req resp x Hfresh. subst x.
  unfold IpaUserHandler, UserShow, loginKerberos, result, trace.
  answer_cases; cbn.
  all: try (intros []; fail).
  all: intros Hin; exchange_cases; status_cases.
  all: repeat split; intros; try discriminate; try contradiction;
    try congruence.
  all: try (cbn; apply http_Error_status; exact Hfresh).
Qed.

(** X5.  When the login succeeds and the JSON-RPC call is answered with
    status 200 and a body that decodes to a result without error envelope,
    [IpaUserHandler] answers with status 200, content type
    [application/json; charset=utf-8], and a body that is the JSON
    encoding of exactly that result mapping. *)
Theorem IpaUserHandler_result_verbatim :
  forall (w : ResponseWriter) (r : Request) (W : World) (s : State W)
         (req : HTTPRequest) (resp : HTTPResponse) (out : ipaResp),
    let x := run (IpaUserHandler w r) s in
    W_Status w = None ->
    W_writeErr w = None ->
    In (req, inr resp) (omap httpExchange (trace x)) ->
    Req_Method req = "POST" ->
    Resp_StatusCode resp = StatusOK ->
    json_Decode_ipaResp (Resp_Body resp) = inr out ->
    ipaResp_Error out = None ->
    exists w' : ResponseWriter,
      result x = Returned w'
      /\ W_Status w' = Some StatusOK
      /\ W_Body w' = W_Body w ++ [Json (JObject (ipaResp_Result out))]
      /\ Header_Get (W_Header w') "Content-Type"
         = "application/json; charset=utf-8".
Proof.
  intros w r W s req resp out x Hfresh Hw. subst x.
  unfold IpaUserHandler, UserShow, loginKerberos, result, trace.
  answer_cases; cbn.
  all: try (intros []; fail).
  all: intros Hin Hm Hst Hdec Herr; exchange_cases; status_cases.
  all: try discriminate; try contradiction; try congruence.
  all: match goal with
       | H : Encode _ _ = _ |- _ =>
           unfold Encode, Write, WriteHeader, W_Header_Set in H; cbn in H;
           rewrite Hfresh in H; cbn in H; rewrite Hw in H;
           inversion H; subst; clear H
       end.
  all: assert (Hv : i = out) by congruence; subst i.
  all: eexists; split; [reflexivity |].
  all: cbn; repeat split.
  all: unfold Header_Get, Header_Set; rewrite lookup_insert_eq; reflexivity.
Qed.

End DirectoryResponses.

(** ** The provider and the connection *)

(** Case analysis on the answers of the environment along a run, keeping
    track of the registration point. *)
Ltac oracle_step :=
  match goal with
  | |- context [answer ?W0 ?c ?e] =>
      let t := fresh "t" in
      let e' := fresh "e" in
      destruct (answer W0 c e) as [t e'] eqn:?
  | |- context [match ?x with _ => _ end] => is_var x; destruct x
  | |- context [match ?x with _ => _ end] =>
      lazymatch x with
      | context [run _ _] => fail
      | context [answer _ _ _] => fail
      | context [match _ with _ => _ end] => fail
      | _ => destruct x eqn:?
      end
  end.

Ltac oracle_cases :=
  repeat (run_norm; unfold perform; cbn [env newGSS]; oracle_step);
  run_norm; unfold perform; cbn [env newGSS].

Section ProviderProperties.
Context {L : Lib}.

(** X6.  [NewGSSFromCCache] loads the credential cache it is given and
    passes its options on to the client unchanged; building the provider
    never requests a ticket and never sends anything.  With an empty
    configuration path it reads no configuration file and builds the
    client on [config.New()]; with a non-empty one it loads that file and
    no other. *)
Theorem NewGSSFromCCache_configuration :
  forall (ccachePath krb5ConfPath : string) (opts : list ClientSetting)
         (W : World) (s : State W),
    let tr := trace (run (NewGSSFromCCache ccachePath krb5ConfPath opts) s) in
    omap ccacheLoaded tr = [ccachePath]
    /\ omap ticketSPN tr = []
    /\ omap tokenSent tr = []
    /\ Forall (fun co => snd co = opts) (omap clientBuilt tr)
    /\ (krb5ConfPath = "" ->
        omap configLoaded tr = []
        /\ Forall (fun co => fst co = config_New) (omap clientBuilt tr))
    /\ (krb5ConfPath <> "" ->
        Forall (eq krb5ConfPath) (omap configLoaded tr)
        /\ (omap clientBuilt tr <> [] -> omap configLoaded tr = [krb5ConfPath])).
Proof.
  intros ccachePath krb5ConfPath opts W s tr. subst tr.
  unfold NewGSSFromCCache, trace.
  destruct (String.eqb_spec krb5ConfPath "") as [-> | Hne].
  - answer_cases; cbn; repeat split; try reflexivity;
      repeat constructor; try congruence.
  - answer_cases; cbn; repeat split; try reflexivity;
      repeat constructor; try congruence.
Qed.

(** X7.  [QueryAsUser] and [PoolForUser] each write the registration point
    exactly once and never restore it: on every path, in every world, the
    registration point holds their own provider when they return --- also
    when the connection string does not parse, in which case nothing else
    is attempted. *)
Theorem registration_is_left_behind :
  forall (W : World) (s : State W) (rounds : nat)
         (dsn ccachePath krb5Conf sql : string) (args : list any),
    let own := {| Provider_ccachePath := ccachePath;
                  Provider_krb5Conf := krb5Conf;
                  Provider_opts := QueryAsUser_opts |} in
    let pooled := {| Provider_ccachePath := ccachePath;
                     Provider_krb5Conf := krb5Conf;
                     Provider_opts := [] |} in
    let x := run (QueryAsUser rounds dsn ccachePath krb5Conf sql args) s in
    let y := run (PoolForUser dsn ccachePath krb5Conf) s in
    newGSS (final x) = Some own
    /\ omap providerRegistered (trace x) = [own]
    /\ (forall err, fst (answer W (pgx_ParseConfig dsn) (env s)) = inl err ->
        result x = Returns (inl err)
        /\ trace x = [Ev (pgconn_RegisterGSSProvider own) tt;
                      Ev (pgx_ParseConfig dsn) (inl err)])
    /\ newGSS (final y) = Some pooled
    /\ omap providerRegistered (trace y) = [pooled].
Proof.
  intros W s rounds dsn ccachePath krb5Conf sql args own pooled x y.
  subst x y own pooled.
  unfold QueryAsUser, PoolForUser, ConnectConfig, gssAuth, Provider_call,
    NewGSSFromCCache, result, final, trace.
  destruct rounds as [| n].
  all: split; [| split; [| split; [| split]]].
  all: try (intros err; oracle_cases; cbn; intros Herr;
            first [discriminate Herr
                  | inversion Herr; subst; split; reflexivity]).
  all: oracle_cases; cbn; reflexivity.
Qed.

End ProviderProperties.

Section QueryProperties.
Context {L : Lib}.

Lemma collectRows_all (vs : list (list any)) (acc : list (list any)) :
  collectRows (map inr vs) acc = inr (acc ++ vs).
Proof.
  revert acc. induction vs as [| v vs IH]; intros acc; simpl.
  - rewrite app_nil_r. reflexivity.
  - rewrite IH, <- app_assoc. reflexivity.
Qed.

Lemma collectRows_first_error (vs : list (list any)) (err : error)
    (rest : list (Result (list any))) (acc : list (list any)) :
  collectRows (map inr vs ++ inl err :: rest) acc = inl err.
Proof.
  revert acc. induction vs as [| v vs IH]; intros acc; simpl.
  - reflexivity.
  - apply IH.
Qed.

(** X8.  [QueryAsUser] closes what it has opened and nothing else, in any
    world: the [Close] calls of a run are the row stream the query
    answered with, if it answered with one, followed by the connection
    that was established, if one was; at most one connection is
    established, and when one is, closing it is the last call of the
    run. *)
Theorem QueryAsUser_closes_what_it_opens :
  forall (W : World) (s : State W) (rounds : nat)
         (dsn ccachePath krb5Conf sql : string) (args : list any),
    let tr := trace (run (QueryAsUser rounds dsn ccachePath krb5Conf sql args) s) in
    omap closed tr
    = omap (fun a => match a with
                     | inr rs => Some (ClosedRows rs)
                     | inl _ => None
                     end) (omap queryAnswer tr)
      ++ map ClosedConn (omap established tr)
    /\ (length (omap established tr) <= 1)%nat
    /\ (forall c, In c (omap established tr) ->
                  last tr = Some (Ev (Conn_Close c) tt)).
Proof.
  intros W s rounds dsn ccachePath krb5Conf sql args tr. subst tr.
  unfold QueryAsUser, ConnectConfig, gssAuth, Provider_call, NewGSSFromCCache,
    trace.
  destruct rounds as [| n].
  all: answer_cases; cbn.
  all: split; [reflexivity |]; split; [lia |].
  all: intros cx Hin; cbn in Hin;
    repeat match goal with
      | H : _ \/ _ |- _ => destruct H as [H | H]
      | H : False |- _ => destruct H
      end; subst;
    repeat match goal with u : unit |- _ => destruct u end; reflexivity.
Qed.

(** X9.  What [QueryAsUser] returns once the query has been answered with
    a row stream, in any world: if every row can be read and the stream
    ends without error, the rows in stream order; if reading a row fails,
    that first error, the rows read before it being dropped; if the stream
    ends with an error, that error. *)
Theorem QueryAsUser_rows_or_first_error :
  forall (W : World) (s : State W) (rounds : nat)
         (dsn ccachePath krb5Conf sql : string) (args : list any) (rs : Rows),
    let x := run (QueryAsUser rounds dsn ccachePath krb5Conf sql args) s in
    In (inr rs) (omap queryAnswer (trace x)) ->
    (forall vs, Rows_values rs = map inr vs -> Rows_Err rs = None ->
                result x = Returns (inr vs))
    /\ (forall vs err rest,
           Rows_values rs = map inr vs ++ inl err :: rest ->
           result x = Returns (inl err))
    /\ (forall vs err, Rows_values rs = map inr vs -> Rows_Err rs = Some err ->
                       result x = Returns (inl err)).
Proof.
  intros W s rounds dsn ccachePath krb5Conf sql args rs x. subst x.
  unfold QueryAsUser, ConnectConfig, gssAuth, Provider_call, NewGSSFromCCache,
    result, trace.
  destruct rounds as [| n].
  all: answer_cases; cbn.
  all: try (intros []; fail).
  all: intros [Heq | []]; inversion Heq; subst; clear Heq.
  all: split; [| split].
  all: intros; simpl app in *;
    match goal with
    | Hc : collectRows (Rows_values ?r) [] = _, Hv : Rows_values ?r = _ |- _ =>
        rewrite Hv in Hc;
        first [rewrite collectRows_all in Hc
              | rewrite collectRows_first_error in Hc]
    end; cbn [app] in *; congruence.
Qed.

End QueryProperties.

Section DatabaseHandler.
Context {L : Lib}.

Lemma appendRows_first_bad (good : list (list any)) (ds : list dbData)
    (bad : list any) (rest : list (list any)) (p : panic) (acc : list dbData) :
  Forall2 (fun row d => rowData row = inr d) good ds ->
  rowData bad = inl p ->
  appendRows (good ++ bad :: rest) acc = inl p.
Proof.
  intros Hgood Hbad. revert acc.
  induction Hgood as [| row d good ds Hrow _ IH]; intros acc; simpl.
  - rewrite Hbad. reflexivity.
  - rewrite Hrow. apply IH.
Qed.

(** X10.  When the query yields rows of which one does not hold a string,
    a string and a time in its first three columns (a NULL, another type, a
    short row), [TestSelectHandler] panics with the panic of the first such
    row: nothing has been written to the client, and the panic comes after
    the query ran and the connection was closed.  In any world. *)
Theorem TestSelectHandler_bad_row_panics :
  forall (rounds : nat) (w : ResponseWriter) (r : Request)
         (W : World) (s : State W) (rs : Rows)
         (good : list (list any)) (ds : list dbData) (bad : list any)
         (rest : list (list any)) (p : panic),
    let x := run (TestSelectHandler rounds w r) s in
    In (inr rs) (omap queryAnswer (trace x)) ->
    collectRows (Rows_values rs) [] = inr (good ++ bad :: rest) ->
    Rows_Err rs = None ->
    Forall2 (fun row d => rowData row = inr d) good ds ->
    rowData bad = inl p ->
    result x = Panicked w p
    /\ exists c, last (trace x) = Some (Ev (Conn_Close c) tt).
Proof.
  intros rounds w r W s rs good ds bad rest p x Hin Hrows Herr Hgood Hbad.
  subst x. revert Hin.
  unfold TestSelectHandler, QueryAsUser, ConnectConfig, gssAuth,
    Provider_call, NewGSSFromCCache, result, trace.
  destruct rounds as [| n].
  all: answer_cases; cbn.
  all: try (intros []; fail).
  all: intros [Heq | []]; inversion Heq; subst; clear Heq.
  all: repeat match goal with
         | H : collectRows _ _ = _ |- _ =>
             rewrite Hrows in H; inversion H; subst; clear H
         | H : Rows_Err _ = _ |- _ => rewrite Herr in H; try discriminate H; clear H
         | H : appendRows _ _ = _ |- _ =>
             rewrite (appendRows_first_bad _ _ _ Hgood Hbad) in H;
             inversion H; subst; clear H
         end.
  all: repeat match goal with u : unit |- _ => destruct u end.
  all: split; [reflexivity | eexists; reflexivity].
Qed.

(** X11.  With a usable credential-cache header, an identity in the
    request context and a fresh writer, [TestSelectHandler] ends in one of
    three ways, in any world: it returns with status 500, it returns with
    status 200, or it panics (on a row, or in the parser of the credential
    cache) without having written anything, and never on the identity.
    Status 200 is only sent after the query was answered with a row
    stream. *)
Theorem TestSelectHandler_outcomes :
  forall (rounds : nat) (w : ResponseWriter) (r : Request)
         (ccache : string) (ident : Identity) (W : World) (s : State W),
    let x := run (TestSelectHandler rounds w r) s in
    Header_Get (Request_Header r) "X_krb5ccname" <> "" ->
    ccacheOf (Header_Get (Request_Header r) "X_krb5ccname") = inr ccache ->
    Request_Identity r = Some ident ->
    W_Status w = None ->
    (exists w' : ResponseWriter,
        result x = Returned w'
        /\ (W_Status w' = Some StatusInternalServerError
            \/ (W_Status w' = Some StatusOK
                /\ exists rs, In (inr rs) (omap queryAnswer (trace x)))))
    \/ (exists p, result x = Panicked w p /\ p <> NilDereference).
Proof.
  intros rounds w r ccache ident W s x Hne Hcc Hid Hfresh. subst x.
  assert (Heqb : String.eqb (Header_Get (Request_Header r) "X_krb5ccname") ""
                 = false) by (apply String.eqb_neq; exact Hne).
  unfold TestSelectHandler. rewrite Heqb, Hcc, Hid.
  unfold QueryAsUser, ConnectConfig, gssAuth, Provider_call,
    NewGSSFromCCache, result, trace.
  destruct rounds as [| n].
  all: answer_cases; cbn.
  all: try (left; eexists; split; [reflexivity |]; left;
            apply http_Error_status; exact Hfresh).
  all: try (right; eexists; split; [reflexivity |];
            first [discriminate | eapply appendRows_panic; eassumption]).
  all: left; eexists; split; [reflexivity |].
  all: match goal with
       | H : Encode _ (inl _) = _ |- _ =>
           cbn in H; inversion H; subst; clear H;
           left; apply http_Error_status; exact Hfresh
       | H : Encode ?w0 (inr ?v) = (?w2, _) |- _ =>
           assert (Hst : W_Status w2 = Some StatusOK)
             by (replace w2 with (fst (Encode w0 (inr v)))
                   by (rewrite H; reflexivity);
                 apply Write_status; exact Hfresh);
           right; split;
           [first [exact Hst | eapply http_Error_written; exact Hst]
           | eexists; left; reflexivity]
       end.
Qed.

End DatabaseHandler.

(** ** Strings: cache names, host names, base URLs *)

Section StringProperties.

Lemma Split_app_sep (a b : string) (sep : ascii) :
  strings.ContainsByte a sep = false ->
  strings.Split (a +:+ String sep b) sep = a :: strings.Split b sep.
Proof.
  induction a as [| c a IH]; simpl; intros H.
  - rewrite Ascii.eqb_refl. reflexivity.
  - destruct (Ascii.eqb c sep); simpl in H; [discriminate |].
    rewrite (IH H). reflexivity.
Qed.

(** A one-byte suffix, read from the front of the string. *)
Lemma HasSuffix_byte (c d : ascii) (s : string) :
  strings.HasSuffix (String c s) (String d "")
  = match s with
    | EmptyString => Ascii.eqb c d
    | _ => strings.HasSuffix s (String d "")
    end.
Proof.
  unfold strings.HasSuffix. destruct s as [| c' s]; simpl.
  - destruct (Ascii.eqb c d); reflexivity.
  - rewrite Nat.sub_0_r. reflexivity.
Qed.

Lemma TrimSuffix_byte (c d : ascii) (s : string) :
  strings.TrimSuffix (String c s) (String d "")
  = match s with
    | EmptyString => if Ascii.eqb c d then EmptyString else String c EmptyString
    | _ => String c (strings.TrimSuffix s (String d ""))
    end.
Proof.
  unfold strings.TrimSuffix. rewrite HasSuffix_byte.
  destruct s as [| c' s].
  - destruct (Ascii.eqb c d); reflexivity.
  - destruct (strings.HasSuffix (String c' s) (String d "")); [| reflexivity].
    simpl. rewrite Nat.sub_0_r. reflexivity.
Qed.

Lemma TrimSuffix_app_byte (s : string) (d : ascii) :
  strings.TrimSuffix (s +:+ String d "") (String d "") = s.
Proof.
  induction s as [| c s IH].
  - change ("" +:+ String d "") with (String d "").
    rewrite TrimSuffix_byte, Ascii.eqb_refl. reflexivity.
  - change (String c s +:+ String d "") with (String c (s +:+ String d "")).
    rewrite TrimSuffix_byte, IH.
    destruct s; reflexivity.
Qed.

Lemma HasSuffix_app_byte (s : string) (d : ascii) :
  strings.HasSuffix (s +:+ String d "") (String d "") = true.
Proof.
  induction s as [| c s IH].
  - change ("" +:+ String d "") with (String d "").
    rewrite HasSuffix_byte. apply Ascii.eqb_refl.
  - change (String c s +:+ String d "") with (String c (s +:+ String d "")).
    rewrite HasSuffix_byte, IH. destruct s; reflexivity.
Qed.


Lemma mapBytes_app (f : ascii -> ascii) (a b : string) :
  strings.mapBytes f (a +:+ b) = strings.mapBytes f a +:+ strings.mapBytes f b.
Proof. induction a as [| c a IH]; simpl; [reflexivity | rewrite IH; reflexivity]. Qed.

Lemma isASCII_app (a b : string) :
  strings.isASCII (a +:+ b) = strings.isASCII a && strings.isASCII b.
Proof.
  induction a as [| c a IH]; simpl; [reflexivity |].
  rewrite IH, andb_assoc. reflexivity.
Qed.

Lemma lowerByte_ascii (c : ascii) :
  (strings.byte_of (strings.lowerByte c) <? strings.RuneSelf)
  = (strings.byte_of c <? strings.RuneSelf).
Proof. destruct c as [[] [] [] [] [] [] [] []]; reflexivity. Qed.

Lemma lowerByte_not_upper (c : ascii) :
  strings.isUpperByte (strings.lowerByte c) = false.
Proof. destruct c as [[] [] [] [] [] [] [] []]; reflexivity. Qed.

Lemma lowerByte_dot (c : ascii) :
  Ascii.eqb (strings.lowerByte c) "." = Ascii.eqb c ".".
Proof. destruct c as [[] [] [] [] [] [] [] []]; reflexivity. Qed.

Lemma isASCII_lower (s : string) :
  strings.isASCII (strings.mapBytes strings.lowerByte s) = strings.isASCII s.
Proof.
  induction s as [| c s IH]; simpl; [reflexivity |].
  rewrite lowerByte_ascii, IH. reflexivity.
Qed.

Lemma noUpper_lower (s : string) :
  noUpper (strings.mapBytes strings.lowerByte s) = true.
Proof.
  induction s as [| c s IH]; simpl; [reflexivity |].
  rewrite lowerByte_not_upper, IH. reflexivity.
Qed.

Lemma noUpper_TrimSuffix (s : string) (d : ascii) :
  noUpper s = true -> noUpper (strings.TrimSuffix s (String d "")) = true.
Proof.
  induction s as [| c s IH]; [intros _; reflexivity |].
  intros H. simpl in H. apply andb_true_iff in H. destruct H as [Hc Hs].
  rewrite TrimSuffix_byte. destruct s as [| c' s].
  - destruct (Ascii.eqb c d); simpl; [reflexivity | rewrite Hc; reflexivity].
  - simpl noUpper at 1. rewrite Hc, (IH Hs). reflexivity.
Qed.

Lemma HasSuffix_dot_lower (s : string) :
  strings.HasSuffix (strings.mapBytes strings.lowerByte s) "."
  = strings.HasSuffix s ".".
Proof.
  induction s as [| c s IH]; [reflexivity |].
  simpl strings.mapBytes. rewrite !HasSuffix_byte.
  destruct s as [| c' s]; [apply lowerByte_dot | exact IH].
Qed.

Lemma lower_idempotent (s : string) :
  strings.mapBytes strings.lowerByte (strings.mapBytes strings.lowerByte s)
  = strings.mapBytes strings.lowerByte s.
Proof.
  induction s as [| c s IH]; simpl; [reflexivity |].
  rewrite IH. f_equal.
  destruct c as [[] [] [] [] [] [] [] []]; reflexivity.
Qed.

(** X12.  The credential-cache path the handlers use is the text between
    the first and the second colon of the header value: whatever stands
    before the first colon (the cache type) is dropped without being
    looked at, and so is everything from a second colon on. *)
Theorem ccacheOf_between_colons :
  forall (kind path rest : string),
    strings.ContainsByte kind ":" = false ->
    strings.ContainsByte path ":" = false ->
    ccacheOf (kind +:+ ":" +:+ path) = inr path
    /\ ccacheOf (kind +:+ ":" +:+ path +:+ ":" +:+ rest) = inr path.
Proof.
  intros kind path rest Hk Hp. unfold ccacheOf.
  change (":" +:+ path) with (String ":" path).
  change (":" +:+ path +:+ ":" +:+ rest)
    with (String ":" (path +:+ String ":" rest)).
  rewrite !Split_app_sep by assumption.
  rewrite (Split_without_sep _ _ Hp). split; reflexivity.
Qed.

Section Hosts.
Context {L : Lib}.

(** X13.  On ASCII host names [canonicalizeHost] is insensitive to case
    and to one final dot: its result has no upper-case letter, two names
    that differ only in case get the same result, a name with a final dot
    appended gets the lower-cased name (so exactly one dot is removed, and
    a name ending in two dots keeps one), and a name without a final dot
    and the same name with one get the same result. *)
Theorem canonicalizeHost_ascii :
  forall h : string,
    strings.isASCII h = true ->
    noUpper (canonicalizeHost h) = true
    /\ (forall h' : string,
           strings.isASCII h' = true ->
           strings.mapBytes strings.lowerByte h'
           = strings.mapBytes strings.lowerByte h ->
           canonicalizeHost h' = canonicalizeHost h)
    /\ canonicalizeHost (h +:+ ".") = strings.mapBytes strings.lowerByte h
    /\ (strings.HasSuffix h "." = false ->
        canonicalizeHost h = strings.mapBytes strings.lowerByte h
        /\ canonicalizeHost (h +:+ ".") = canonicalizeHost h).
Proof.
  intros h Hh.
  assert (Hdot : canonicalizeHost (h +:+ ".")
                 = strings.mapBytes strings.lowerByte h).
  { unfold canonicalizeHost, strings.ToLower.
    rewrite isASCII_app, Hh. cbn [strings.isASCII andb].
    replace (strings.byte_of "." <? strings.RuneSelf) with true by reflexivity.
    cbn [andb]. rewrite mapBytes_app. apply TrimSuffix_app_byte. }
  split; [| split; [| split]].
  - unfold canonicalizeHost, strings.ToLower. rewrite Hh.
    apply noUpper_TrimSuffix, noUpper_lower.
  - intros h' Hh' Heq. unfold canonicalizeHost, strings.ToLower.
    rewrite Hh, Hh', Heq. reflexivity.
  - exact Hdot.
  - intros Hno.
    assert (Hcan : canonicalizeHost h = strings.mapBytes strings.lowerByte h).
    { unfold canonicalizeHost, strings.ToLower, strings.TrimSuffix.
      rewrite Hh, HasSuffix_dot_lower, Hno. reflexivity. }
    split; [exact Hcan | rewrite Hdot, Hcan; reflexivity].
Qed.

Lemma TrimRight_app_slash (s : string) :
  strings.TrimRight (s +:+ "/") "/" = strings.TrimRight s "/".
Proof.
  induction s as [| c s IH]; [reflexivity |].
  change (String c s +:+ "/") with (String c (s +:+ "/")).
  simpl strings.TrimRight. rewrite IH. reflexivity.
Qed.

Lemma TrimRight_no_slash (s : string) :
  strings.HasSuffix (strings.TrimRight s "/") "/" = false.
Proof.
  induction s as [| c s IH]; [reflexivity |].
  simpl strings.TrimRight.
  destruct (strings.TrimRight s "/") as [| c' t] eqn:E.
  - destruct (Ascii.eqb_spec c "/") as [-> | Hne]; simpl.
    + reflexivity.
    + rewrite HasSuffix_byte. apply Ascii.eqb_neq. exact Hne.
  - rewrite HasSuffix_byte. exact IH.
Qed.

(** X14.  Trailing slashes of the base URL do not matter: every request
    [UserShow] sends for a base URL with one more slash at its end goes to
    the login or the JSON-RPC endpoint of the base URL itself, and the
    endpoint path is never joined with a doubled slash.  In any world. *)
Theorem UserShow_ignores_trailing_slash :
  forall (ipaBaseURL krb5ConfPath ccachePath uid : string)
         (W : World) (s : State W),
    Forall (fun ex =>
              Req_URL (fst ex)
              = strings.TrimRight ipaBaseURL "/" +:+ "/ipa/session/login_kerberos"
              \/ Req_URL (fst ex)
                 = strings.TrimRight ipaBaseURL "/" +:+ "/ipa/session/json")
      (omap httpExchange
         (trace (run (UserShow (ipaBaseURL +:+ "/") krb5ConfPath ccachePath uid) s)))
    /\ strings.HasSuffix (strings.TrimRight ipaBaseURL "/") "/" = false.
Proof.
  intros ipaBaseURL krb5ConfPath ccachePath uid W s.
  split; [| apply TrimRight_no_slash].
  unfold UserShow, loginKerberos, trace.
  rewrite !TrimRight_app_slash.
  answer_cases; cbn.
  all: repeat (apply List.Forall_cons;
               [cbn; first [left; reflexivity | right; reflexivity] |]).
  all: apply List.Forall_nil.
Qed.

End Hosts.

End StringProperties.

(** ** Tokens, pools and the realm configuration *)

Section TokensAndConfiguration.
Context {L : Lib}.

Ltac in_cases :=
  repeat match goal with
    | H : _ \/ _ |- _ => destruct H as [H | H]
    | H : False |- _ => destruct H
    | H : (_, _) = (_, _) |- _ => inversion H; subst; clear H
    end.

(** X15.  What is sent is what was just built, in any world.  On the HTTP
    Negotiate path the one request of [loginKerberos] is a GET to the
    login endpoint whose [Authorization] header is ["Negotiate "] followed
    by the base64 encoding of the bytes the token was serialized to in
    that run; on the database wire path the tokens transmitted to the peer
    are exactly the serialized tokens of that connection attempt. *)
Theorem token_sent_is_token_built :
  forall (W : World) (s : State W),
    (forall (ipaBaseURL krb5ConfPath ccachePath : string)
            (req : HTTPRequest) (a : Result HTTPResponse),
        let tr := trace (run (loginKerberos ipaBaseURL krb5ConfPath ccachePath) s) in
        In (req, a) (omap httpExchange tr) ->
        exists raw,
          omap marshalled tr = [raw]
          /\ req = {| Req_Method := "GET";
                      Req_URL := strings.TrimRight ipaBaseURL "/"
                                 +:+ "/ipa/session/login_kerberos";
                      Req_Header :=
                        [("Authorization",
                          "Negotiate " +:+ base64_EncodeToString raw);
                         ("Accept", "application/json")];
                      Req_Cookies := [];
                      Req_Body := None |})
    /\ (forall (n : nat) (cfg : ConnConfig),
           let tr := trace (run (ConnectConfig Provider_call (S n) cfg) s) in
           omap tokenSent tr = omap marshalled tr).
Proof.
  intros W s. split.
  - intros ipaBaseURL krb5ConfPath ccachePath req a tr. subst tr.
    unfold loginKerberos, trace.
    answer_cases; cbn.
    all: try (intros []; fail).
    all: intros Hin; in_cases.
    all: eexists; split; reflexivity.
  - intros n cfg tr. subst tr.
    unfold ConnectConfig, gssAuth, Provider_call, NewGSSFromCCache, trace.
    answer_cases; cbn; reflexivity.
Qed.

(** X16.  What [PoolForUser] hands to [pgxpool.NewWithConfig], in any
    world: nothing when the connection string does not parse (the parse
    error is returned and [NewWithConfig] is not called); otherwise one
    configuration whose fields are [MaxConns = 1], [MinConns = 0],
    [MaxConnLifetime] of 30 seconds, [HealthCheckPeriod] of zero and a
    dial timeout of 5 seconds, whatever the connection string says about
    pooling, with the connection parameters of the string kept.  What the
    pool library does with these values is not part of the statement.
    [PoolForUser] does not load the credential cache itself. *)
Theorem PoolForUser_single_connection :
  forall (W : World) (s : State W) (dsn ccachePath krb5Conf : string),
    let x := run (PoolForUser dsn ccachePath krb5Conf) s in
    Forall (fun pc =>
              Pool_MaxConns pc = 1 /\ Pool_MinConns pc = 0
              /\ Pool_MaxConnLifetime pc = 30
              /\ Pool_HealthCheckPeriod pc = 0
              /\ Pool_DialTimeout pc = Some 5)
      (omap poolCreated (trace x))
    /\ omap ccacheLoaded (trace x) = []
    /\ (forall err,
           fst (answer W (pgxpool_ParseConfig dsn) (env s)) = inl err ->
           result x = inl err /\ omap poolCreated (trace x) = [])
    /\ (forall pc0,
           fst (answer W (pgxpool_ParseConfig dsn) (env s)) = inr pc0 ->
           map Pool_ConnConfig (omap poolCreated (trace x))
           = [Pool_ConnConfig pc0]).
Proof.
  intros W s dsn ccachePath krb5Conf x. subst x.
  unfold PoolForUser, result, trace.
  split; [| split; [| split]].
  - answer_cases; cbn; repeat constructor.
  - answer_cases; cbn; reflexivity.
  - intros err. oracle_cases; cbn; intros Herr;
      first [discriminate Herr | inversion Herr; subst; split; reflexivity].
  - intros pc0. oracle_cases; cbn; intros Hpc;
      first [discriminate Hpc | inversion Hpc; subst; reflexivity].
Qed.

(** X17.  The two handlers treat an empty [KRB5_CONFIG_PATH] differently,
    in any world.  [IpaUserHandler] hands the empty path to [config.Load]:
    every client it builds was preceded by loading the configuration from
    the empty path.  [TestSelectHandler] loads no configuration file at all
    and builds its client on [config.New()]. *)
Theorem empty_config_path_by_handler :
  forall (w : ResponseWriter) (r : Request) (W : World) (s : State W)
         (rounds : nat),
    (let tr := trace (run (IpaUserHandler w r) s) in
     In ("KRB5_CONFIG_PATH", "") (omap envRead tr) ->
     Forall (eq "") (omap configLoaded tr)
     /\ (omap clientBuilt tr <> [] -> omap configLoaded tr = [""]))
    /\ (let tr := trace (run (TestSelectHandler rounds w r) s) in
        In ("KRB5_CONFIG_PATH", "") (omap envRead tr) ->
        omap configLoaded tr = []
        /\ Forall (fun co => fst co = config_New) (omap clientBuilt tr)).
Proof.
  intros w r W s rounds. split.
  - intros tr. subst tr.
    unfold IpaUserHandler, UserShow, loginKerberos, trace.
    answer_cases; cbn.
    all: try (intros []; fail).
    all: intros Hin; in_cases; try discriminate.
    all: split; [repeat constructor | intros Hb; first [reflexivity | congruence]].
  - intros tr. subst tr.
    unfold TestSelectHandler, QueryAsUser, ConnectConfig, gssAuth,
      Provider_call, NewGSSFromCCache, trace.
    destruct rounds as [| n].
    all: oracle_cases; cbn.
    all: try (intros []; fail).
    all: intros Hin; in_cases; try discriminate.
    all: cbn in *; try discriminate.
    all: split; [reflexivity | repeat constructor].
Qed.

End TokensAndConfiguration.

(** ** Requests run one at a time *)

Section Isolation.
Context {L : Lib}.

(** X18.  The two handlers work on disjoint services, in any world.
    [IpaUserHandler] never writes or reads the registration point of the
    database client library (it is left as it was found) and never opens a
    database connection; [TestSelectHandler] never sends an HTTP
    request. *)
Theorem handlers_use_disjoint_services :
  forall (w : ResponseWriter) (r : Request) (W : World) (s : State W)
         (rounds : nat),
    (let x := run (IpaUserHandler w r) s in
     newGSS (final x) = newGSS s
     /\ omap providerRegistered (trace x) = []
     /\ omap providerObserved (trace x) = []
     /\ omap queryAnswer (trace x) = []
     /\ omap closed (trace x) = [])
    /\ omap httpExchange (trace (run (TestSelectHandler rounds w r) s)) = [].
Proof.
  intros w r W s rounds. split.
  - intros x. subst x.
    unfold IpaUserHandler, UserShow, loginKerberos, final, trace.
    oracle_cases; cbn; repeat split.
  - unfold TestSelectHandler, QueryAsUser, ConnectConfig, gssAuth,
      Provider_call, NewGSSFromCCache, trace.
    destruct rounds as [| n].
    all: answer_cases; cbn; reflexivity.
Qed.

(** X19.  A request to [TestSelectHandler] that runs alone uses its own
    delegated credentials only, in any world and whatever an earlier
    request left at the registration point: every credential cache loaded
    is the one named by the request's header, and every provider the
    client library finds is the one this request registered. *)
Theorem TestSelectHandler_alone_uses_own_cache :
  forall (rounds : nat) (w : ResponseWriter) (r : Request) (ccache : string)
         (W : World) (s : State W),
    let tr := trace (run (TestSelectHandler rounds w r) s) in
    Header_Get (Request_Header r) "X_krb5ccname" <> "" ->
    ccacheOf (Header_Get (Request_Header r) "X_krb5ccname") = inr ccache ->
    Forall (eq ccache) (omap ccacheLoaded tr)
    /\ Forall (fun o => exists p, o = Some p /\ Provider_ccachePath p = ccache)
         (omap providerObserved tr).
Proof.
  intros rounds w r ccache W s tr Hne Hcc. subst tr.
  assert (Heqb : String.eqb (Header_Get (Request_Header r) "X_krb5ccname") ""
                 = false) by (apply String.eqb_neq; exact Hne).
  unfold TestSelectHandler. rewrite Heqb, Hcc.
  unfold QueryAsUser, ConnectConfig, gssAuth, Provider_call,
    NewGSSFromCCache, trace.
  destruct rounds as [| n].
  all: oracle_cases; cbn.
  all: split; repeat (apply List.Forall_cons; [first [reflexivity | eexists; split; reflexivity] |]); apply List.Forall_nil.
Qed.

End Isolation.

(** ** The further properties on concrete inputs *)

Section ConcreteRuns.
Import Demo.
Import Scenario.

(** X1 at concrete inputs: a request whose credential cache is an empty
    file, and a request without [uid]. *)
Lemma IpaUserHandler_statuses_witness :
  let x := run (IpaUserHandler writer request_emptyCache) (start happy) in
  Header_Get (Request_Header request_emptyCache) "X_krb5ccname" <> ""
  /\ ccacheOf (Header_Get (Request_Header request_emptyCache) "X_krb5ccname")
     = inr "/dev/null"
  /\ W_Status writer = None
  /\ result x = Panicked writer (IndexOutOfRange 0 0)
  /\ IpaUserHandler writer request_nouid
     = Ret (Returned (http_Error writer "uid is required" StatusBadRequest)).
Proof.
  intros x.
  assert (Hne : Header_Get (Request_Header request_emptyCache) "X_krb5ccname"
                <> "") by (vm_compute; discriminate).
  assert (Hcc : ccacheOf (Header_Get (Request_Header request_emptyCache)
                            "X_krb5ccname") = inr "/dev/null")
    by reflexivity.
  assert (Hne' : Header_Get (Request_Header request_nouid) "X_krb5ccname" <> "")
    by (vm_compute; discriminate).
  assert (Hcc' : ccacheOf (Header_Get (Request_Header request_nouid)
                             "X_krb5ccname") = inr "/tmp/krb5cc_1000")
    by reflexivity.
  assert (Hfresh : W_Status writer = None) by reflexivity.
  destruct (@IpaUserHandler_statuses Scenario.lib writer request_nouid
              "/tmp/krb5cc_1000" Hne' Hcc' Hfresh) as [Huid _].
  destruct (@IpaUserHandler_statuses Scenario.lib writer request_emptyCache
              "/dev/null" Hne Hcc Hfresh) as [_ Hrun].
  refine (conj Hne (conj Hcc (conj Hfresh (conj _ (Huid eq_refl))))).
  destruct (Hrun (world happy) (start happy))
    as [(i & n & Hres & Hlp & _) | (w' & _ & Hlp & _)].
  - vm_compute in Hlp. inversion Hlp; subst. exact Hres.
  - vm_compute in Hlp. discriminate Hlp.
Defined.

(** X3 at a concrete input: the directory answers with an error
    envelope. *)
Lemma UserShow_answer_witness :
  let x := run (UserShow "https://ipa.example.com" "/etc/krb5.conf"
                  "/tmp/krb5cc_1000" "jdoe") (start userUnknown) in
  In (rpcRequest_sent, inr (rpcResponse "{error}"))
     (omap httpExchange (trace x))
  /\ result x = Returns (inl "ipa error 4001: jdoe: user not found").
Proof.
  intros x.
  assert (Hin : In (rpcRequest_sent, inr (rpcResponse "{error}"))
                  (omap httpExchange (trace x)))
    by (vm_compute; right; left; reflexivity).
  destruct (@UserShow_answer Scenario.lib "https://ipa.example.com"
              "/etc/krb5.conf" "/tmp/krb5cc_1000" "jdoe"
              (world userUnknown) (start userUnknown)
              rpcRequest_sent (rpcResponse "{error}") Hin eq_refl)
    as [_ Hok].
  destruct (Hok eq_refl) as (_ & Henv & _).
  split; [exact Hin |].
  exact (Henv _ _ eq_refl eq_refl).
Defined.

(** X4 at a concrete input: the directory rejects the login with 403. *)
Lemma IpaUserHandler_directory_failures_witness :
  let x := run (IpaUserHandler writer request_jdoe) (start loginRejected) in
  W_Status writer = None
  /\ In (loginRequest_sent, inr (loginResponse 403))
       (omap httpExchange (trace x))
  /\ result x
     = Returned (http_Error writer "ipa: login_kerberos HTTP 403"
                   StatusBadGateway)
  /\ length (omap httpExchange (trace x)) = 1%nat.
Proof.
  intros x.
  assert (Hfresh : W_Status writer = None) by reflexivity.
  assert (Hin : In (loginRequest_sent, inr (loginResponse 403))
                  (omap httpExchange (trace x)))
    by (vm_compute; left; reflexivity).
  destruct (@IpaUserHandler_directory_failures Scenario.lib writer
              request_jdoe (world loginRejected) (start loginRejected)
              loginRequest_sent (loginResponse 403) Hfresh Hin)
    as [Hlogin _].
  assert (Hst : Resp_StatusCode (loginResponse 403) <> StatusOK)
    by (vm_compute; discriminate).
  destruct (Hlogin eq_refl Hst) as (Hres & _ & Hlen).
  exact (conj Hfresh (conj Hin (conj Hres Hlen))).
Defined.

(** X5 at a concrete input: the directory returns a record. *)
Lemma IpaUserHandler_result_verbatim_witness :
  let x := run (IpaUserHandler writer request_jdoe) (start happy) in
  W_Status writer = None
  /\ W_writeErr writer = None
  /\ In (rpcRequest_sent, inr (rpcResponse "{}"))
       (omap httpExchange (trace x))
  /\ exists w' : ResponseWriter,
       result x = Returned w'
       /\ W_Status w' = Some StatusOK
       /\ W_Body w'
          = [Json (JObject [("uid", JArray [JString "jdoe"]);
                            ("mail", JArray [JString "jdoe@example.com"])])].
Proof.
  intros x.
  assert (Hfresh : W_Status writer = None) by reflexivity.
  assert (Hw : W_writeErr writer = None) by reflexivity.
  assert (Hin : In (rpcRequest_sent, inr (rpcResponse "{}"))
                  (omap httpExchange (trace x)))
    by (vm_compute; right; left; reflexivity).
  destruct (@IpaUserHandler_result_verbatim Scenario.lib writer request_jdoe
              (world happy) (start happy) rpcRequest_sent (rpcResponse "{}")
              _ Hfresh Hw Hin eq_refl eq_refl eq_refl eq_refl)
    as (w' & Hres & Hst & Hbody & _).
  refine (conj Hfresh (conj Hw (conj Hin _))).
  exists w'. exact (conj Hres (conj Hst Hbody)).
Defined.

(** X9 at a concrete input: the row stream breaks after its first row. *)
Lemma QueryAsUser_rows_or_first_error_witness :
  let x := run (QueryAsUser 1 "host=db.example.com user=jdoe dbname=app"
                  "/tmp/krb5cc_1000" "/etc/krb5.conf" "select 1" [])
             (start brokenStream) in
  In (inr brokenRows) (omap queryAnswer (trace x))
  /\ result x = Returns (inl "unexpected EOF").
Proof.
  intros x.
  assert (Hin : In (inr brokenRows) (omap queryAnswer (trace x)))
    by (vm_compute; left; reflexivity).
  destruct (@QueryAsUser_rows_or_first_error Scenario.lib
              (world brokenStream) (start brokenStream) 1
              "host=db.example.com user=jdoe dbname=app"
              "/tmp/krb5cc_1000" "/etc/krb5.conf" "select 1" []
              brokenRows Hin) as (_ & Hfirst & _).
  split; [exact Hin |].
  exact (Hfirst [goodRow] "unexpected EOF"
           [inr [any_string "late"; any_string "late"; any_Time 44]] eq_refl).
Defined.

(** X10 at a concrete input: the second row holds a NULL. *)
Lemma TestSelectHandler_bad_row_panics_witness :
  let x := run (TestSelectHandler 1 writer request_jdoe) (start nullRow) in
  In (inr nullRows) (omap queryAnswer (trace x))
  /\ result x = Panicked writer (InterfaceConversion any_nil "string").
Proof.
  intros x.
  assert (Hin : In (inr nullRows) (omap queryAnswer (trace x)))
    by (vm_compute; left; reflexivity).
  assert (Hgood : Forall2 (fun row d => rowData row = inr d) [goodRow]
                    [{| CurrentUser := "jdoe"; SessionUser := "jdoe";
                        Timestamp := 42 |}])
    by (repeat constructor).
  destruct (@TestSelectHandler_bad_row_panics Scenario.lib 1 writer
              request_jdoe (world nullRow) (start nullRow) nullRows
              [goodRow] _ [any_string "jdoe"; any_nil; any_Time 43] []
              (InterfaceConversion any_nil "string")
              Hin eq_refl eq_refl Hgood eq_refl) as [Hres _].
  split; [exact Hin | exact Hres].
Defined.

(** X11 at a concrete input: the connection string does not parse. *)
Lemma TestSelectHandler_outcomes_witness :
  let x := run (TestSelectHandler 1 writer request_jdoe) (start badDSN) in
  Header_Get (Request_Header request_jdoe) "X_krb5ccname" <> ""
  /\ Request_Identity request_jdoe = Some jdoe
  /\ W_Status writer = None
  /\ ((exists w' : ResponseWriter,
          result x = Returned w'
          /\ (W_Status w' = Some StatusInternalServerError
              \/ (W_Status w' = Some StatusOK
                  /\ exists rs, In (inr rs) (omap queryAnswer (trace x)))))
      \/ (exists p, result x = Panicked writer p /\ p <> NilDereference))
  /\ result x
     = Returned (http_Error writer "cannot parse dsn" StatusInternalServerError).
Proof.
  intros x.
  assert (Hne : Header_Get (Request_Header request_jdoe) "X_krb5ccname" <> "")
    by (vm_compute; discriminate).
  assert (Hcc : ccacheOf (Header_Get (Request_Header request_jdoe)
                            "X_krb5ccname") = inr "/tmp/krb5cc_1000")
    by reflexivity.
  pose proof (@TestSelectHandler_outcomes Scenario.lib 1 writer request_jdoe
                "/tmp/krb5cc_1000" jdoe (world badDSN) (start badDSN)
                Hne Hcc eq_refl eq_refl) as Hout.
  exact (conj Hne (conj eq_refl (conj eq_refl (conj Hout eq_refl)))).
Defined.

(** X12 at a concrete input: a keyring cache name. *)
Lemma ccacheOf_between_colons_witness :
  strings.ContainsByte "KEYRING" ":" = false
  /\ strings.ContainsByte "persistent" ":" = false
  /\ ccacheOf "KEYRING:persistent" = inr "persistent"
  /\ ccacheOf "KEYRING:persistent:1000" = inr "persistent".
Proof.
  assert (Hk : strings.ContainsByte "KEYRING" ":" = false) by reflexivity.
  assert (Hp : strings.ContainsByte "persistent" ":" = false) by reflexivity.
  destruct (@ccacheOf_between_colons "KEYRING" "persistent" "1000" Hk Hp)
    as [H1 H2].
  exact (conj Hk (conj Hp (conj H1 H2))).
Defined.

(** X13 at a concrete input. *)
Lemma canonicalizeHost_ascii_witness :
  strings.isASCII "DB.Example.COM" = true
  /\ @canonicalizeHost Scenario.lib "DB.Example.COM." = "db.example.com"
  /\ @canonicalizeHost Scenario.lib "DB.Example.COM"
     = @canonicalizeHost Scenario.lib "DB.Example.COM.".
Proof.
  assert (Hh : strings.isASCII "DB.Example.COM" = true) by reflexivity.
  destruct (@canonicalizeHost_ascii Scenario.lib "DB.Example.COM" Hh)
    as (_ & _ & Hdot & Hno).
  destruct (Hno eq_refl) as [_ Hsame].
  exact (conj Hh (conj Hdot (eq_sym Hsame))).
Defined.

(** X19 at a concrete input. *)
Lemma TestSelectHandler_alone_uses_own_cache_witness :
  Header_Get (Request_Header request_jdoe) "X_krb5ccname" <> ""
  /\ ccacheOf (Header_Get (Request_Header request_jdoe) "X_krb5ccname")
     = inr "/tmp/krb5cc_1000"
  /\ Forall (eq "/tmp/krb5cc_1000")
       (omap ccacheLoaded
          (trace (run (TestSelectHandler 1 writer request_jdoe) (start happy)))).
Proof.
  assert (Hne : Header_Get (Request_Header request_jdoe) "X_krb5ccname" <> "")
    by (vm_compute; discriminate).
  assert (Hcc : ccacheOf (Header_Get (Request_Header request_jdoe)
                            "X_krb5ccname") = inr "/tmp/krb5cc_1000")
    by reflexivity.
  destruct (@TestSelectHandler_alone_uses_own_cache Scenario.lib 1 writer
              request_jdoe "/tmp/krb5cc_1000" (world happy) (start happy)
              Hne Hcc) as [Hload _].
  exact (conj Hne (conj Hcc Hload)).
Defined.

End ConcreteRuns.
